(** * The Ollama-FastAPI bridge (app.py): model and verification

    The program is a FastAPI handler, [forward_to_ollama], that checks an
    [OllamaRequest], builds a payload and hands it to [call_ollama], which
    posts it to the upstream service and normalizes the reply.

    Python values are embedded as the inductive type [value]; Python strings
    are sequences of Unicode code points.  What the interpreter and its
    libraries provide ([json.loads], [repr], [os.getenv]) is an interface,
    [PyRuntime]; every general theorem holds for every runtime, and the
    closed examples are evaluated with the reference runtime [cpython]. *)

From Stdlib Require Import Ascii String.
From Stdlib Require Import List ZArith NArith Bool.
From Stdlib Require Import Lia.
Import ListNotations.

Local Open Scope Z_scope.

#[local] Set Warnings "-register-all".

(** ** Python strings *)

Module Py.

(** A code point; a [str] is a list of them. *)
Definition codepoint := N.
Definition str := list codepoint.

Fixpoint str_eqb (a b : str) : bool :=
  match a, b with
  | [], [] => true
  | x :: a', y :: b' => N.eqb x y && str_eqb a' b'
  | _, _ => false
  end.

(** Decoding of the UTF-8 bytes of a literal of this file. *)
Fixpoint utf8_decode (bs : list N) : str :=
  match bs with
  | [] => []
  | b :: r =>
    if (b <? 128)%N then b :: utf8_decode r
    else if (b <? 224)%N then
      match r with
      | b1 :: r1 => ((b mod 32) * 64 + b1 mod 64)%N :: utf8_decode r1
      | _ => []
      end
    else if (b <? 240)%N then
      match r with
      | b1 :: b2 :: r2 =>
        ((b mod 16) * 4096 + (b1 mod 64) * 64 + b2 mod 64)%N :: utf8_decode r2
      | _ => []
      end
    else
      match r with
      | b1 :: b2 :: b3 :: r3 =>
        ((b mod 8) * 262144 + (b1 mod 64) * 4096 + (b2 mod 64) * 64 + b3 mod 64)%N
          :: utf8_decode r3
      | _ => []
      end
  end.

(** The [str] written by a literal. *)
Definition lit (s : string) : str :=
  utf8_decode (map N_of_ascii (list_ascii_of_string s)).

(** The same, with every occurrence of the character [q] standing for a
    double quote (U+0022). *)
Definition litq (q : ascii) (s : string) : str :=
  map (fun c => if (c =? N_of_ascii q)%N then 34%N else c) (lit s).

(** [str.splitlines()]: the line boundaries of the language reference. *)
Definition is_linebreak (c : codepoint) : bool :=
  ((c =? 10) || (c =? 11) || (c =? 12) || (c =? 13) || (c =? 28) || (c =? 29)
   || (c =? 30) || (c =? 133) || (c =? 8232) || (c =? 8233))%N.

(** [cur] holds the current line, last character first.  A line feed that
    directly follows a carriage return belongs to the same boundary. *)
Fixpoint splitlines_from (cur : str) (s : str) : list str :=
  match s with
  | [] => match cur with [] => [] | _ => [rev cur] end
  | c :: s' =>
    if is_linebreak c then
      rev cur ::
        match s' with
        | d :: s'' =>
          if ((c =? 13) && (d =? 10))%N then splitlines_from [] s''
          else splitlines_from [] s'
        | [] => []
        end
    else splitlines_from (c :: cur) s'
  end.

Definition splitlines (s : str) : list str := splitlines_from [] s.

(** [str.isspace] on one character: what [str.strip()] removes. *)
Definition is_space (c : codepoint) : bool :=
  (((9 <=? c) && (c <=? 13)) || ((28 <=? c) && (c <=? 32)) || (c =? 133)
   || (c =? 160) || (c =? 5760) || ((8192 <=? c) && (c <=? 8202))
   || (c =? 8232) || (c =? 8233) || (c =? 8239) || (c =? 8287) || (c =? 12288))%N.

Fixpoint lstrip (s : str) : str :=
  match s with
  | c :: s' => if is_space c then lstrip s' else s
  | [] => []
  end.

Definition rstrip (s : str) : str := rev (lstrip (rev s)).

Definition strip (s : str) : str := rstrip (lstrip s).

(** Truth value of a [str]: non-empty. *)
Definition str_truthy (s : str) : bool :=
  match s with [] => false | _ => true end.

(** [''.join(parts)]. *)
Definition join_empty (parts : list str) : str := concat parts.

(** [needle in haystack] for strings, as a proposition. *)
Definition contains (haystack needle : str) : Prop :=
  exists pre suf, haystack = pre ++ needle ++ suf.

(** Decimal digits of a natural number, as [str(n)] writes them. *)
Fixpoint digits_fuel (fuel : nat) (n : N) (acc : str) : str :=
  match fuel with
  | O => acc
  | S fuel' =>
    let acc' := (48 + n mod 10)%N :: acc in
    if (n <? 10)%N then acc' else digits_fuel fuel' (n / 10)%N acc'
  end.

Definition digits (n : N) : str := digits_fuel (S (N.to_nat (N.log2 n))) n [].

Definition str_of_int (z : Z) : str :=
  if z <? 0 then 45%N :: digits (Z.to_N (- z)) else digits (Z.to_N z).

End Py.

Definition pystr : Type := Py.str.

(** ** Python values *)

(** A [float] that came from a decimal literal is kept as that literal: it
    denotes the IEEE double nearest to [digits * 10 ^ exp10], signed. *)
Inductive pyfloat : Type :=
| FNaN
| FInf (negative : bool)
| FDec (negative : bool) (digits : N) (exp10 : Z).

(** The values the program handles: [None], [bool], [int], [float], [str],
    [list] and [dict] with [str] keys.  A [dict] keeps insertion order. *)
Inductive value : Type :=
| VNone
| VBool (b : bool)
| VInt (n : Z)
| VFloat (f : pyfloat)
| VStr (s : pystr)
| VList (items : list value)
| VDict (entries : list (pystr * value)).

Definition pydict := list (pystr * value).

(** [k in d] and [d[k]] (the latter only evaluated when the former holds). *)
Fixpoint dict_get (k : pystr) (d : pydict) : option value :=
  match d with
  | [] => None
  | (k', v) :: d' => if Py.str_eqb k k' then Some v else dict_get k d'
  end.

Definition dict_contains (k : pystr) (d : pydict) : bool :=
  match dict_get k d with Some _ => true | None => false end.

(** [d[k] = v]: an existing key keeps its place, a new one goes last. *)
Fixpoint dict_set (k : pystr) (v : value) (d : pydict) : pydict :=
  match d with
  | [] => [(k, v)]
  | (k', v') :: d' =>
    if Py.str_eqb k k' then (k, v) :: d' else (k', v') :: dict_set k v d'
  end.

(** A double is zero when the literal is, or when it rounds to zero: at most
    [2 ^ -1075], half of the least subnormal. *)
Definition float_truthy (f : pyfloat) : bool :=
  match f with
  | FNaN => true
  | FInf _ => true
  | FDec _ m e =>
    if (m =? 0)%N then false
    else if 0 <=? e then true
    else 10 ^ (- e) <? Z.of_N m * 2 ^ 1075
  end.

(** Truth value testing, as [if v:] does it. *)
Definition truthy (v : value) : bool :=
  match v with
  | VNone => false
  | VBool b => b
  | VInt n => negb (n =? 0)
  | VFloat f => float_truthy f
  | VStr s => Py.str_truthy s
  | VList l => match l with [] => false | _ => true end
  | VDict d => match d with [] => false | _ => true end
  end.

Definition is_dict (v : value) : bool :=
  match v with VDict _ => true | _ => false end.

(** ** The runtime: what the interpreter and its libraries provide *)

Class PyRuntime : Type := {
  (** [json.loads(s)]; [None] when it raises. *)
  json_loads : pystr -> option value;
  (** [repr(v)]. *)
  py_repr : value -> pystr;
  (** [os.getenv(name)]. *)
  getenv : pystr -> option pystr
}.

(** [str(v)]: a [str] is itself; every other value of [value] has no
    [__str__] of its own and is written by [repr]. *)
Definition py_str {R : PyRuntime} (v : value) : pystr :=
  match v with
  | VStr s => s
  | _ => py_repr v
  end.

(** ** The reference runtime: [json.loads] *)

(** The decoder of the [json] module on a [str], in its default (strict)
    mode, for documents within the interpreter's recursion limit. *)
Module Json.

Definition is_ws (c : N) : bool :=
  ((c =? 32) || (c =? 9) || (c =? 10) || (c =? 13))%N.

Fixpoint skip_ws (s : pystr) : pystr :=
  match s with
  | c :: s' => if is_ws c then skip_ws s' else s
  | [] => []
  end.

Definition is_digit (c : N) : bool := ((48 <=? c) && (c <=? 57))%N.

Definition hexval (c : N) : option N :=
  if is_digit c then Some (c - 48)%N
  else if ((97 <=? c) && (c <=? 102))%N then Some (c - 87)%N
  else if ((65 <=? c) && (c <=? 70))%N then Some (c - 55)%N
  else None.

(** The four hexadecimal digits of a [\uXXXX] escape. *)
Definition hex4 (s : pystr) : option (N * pystr) :=
  match s with
  | a :: b :: c :: d :: r =>
    match hexval a, hexval b, hexval c, hexval d with
    | Some a, Some b, Some c, Some d =>
      Some ((((a * 16 + b) * 16 + c) * 16 + d)%N, r)
    | _, _, _, _ => None
    end
  | _ => None
  end.

Definition simple_escape (e : N) : option N :=
  if (e =? 34)%N then Some 34%N
  else if (e =? 92)%N then Some 92%N
  else if (e =? 47)%N then Some 47%N
  else if (e =? 98)%N then Some 8%N
  else if (e =? 102)%N then Some 12%N
  else if (e =? 110)%N then Some 10%N
  else if (e =? 114)%N then Some 13%N
  else if (e =? 116)%N then Some 9%N
  else None.

(** [scanstring], from just after the opening quote: the decoded content
    ([acc], last character first) and what follows the closing quote. *)
Fixpoint scanstring (fuel : nat) (s : pystr) (acc : pystr) : option (pystr * pystr) :=
  match fuel with
  | O => None
  | S fuel' =>
    match s with
    | [] => None
    | c :: r =>
      if (c =? 34)%N then Some (rev acc, r)
      else if (c <? 32)%N then None
      else if (c =? 92)%N then
        match r with
        | [] => None
        | e :: r' =>
          if (e =? 117)%N then
            match hex4 r' with
            | None => None
            | Some (u1, r2) =>
              if ((55296 <=? u1) && (u1 <=? 56319))%N then
                match r2 with
                | 92%N :: 117%N :: r3 =>
                  match hex4 r3 with
                  | None => None
                  | Some (u2, r4) =>
                    if ((56320 <=? u2) && (u2 <=? 57343))%N then
                      scanstring fuel' r4
                        ((65536 + (u1 - 55296) * 1024 + (u2 - 56320))%N :: acc)
                    else scanstring fuel' r2 (u1 :: acc)
                  end
                | _ => scanstring fuel' r2 (u1 :: acc)
                end
              else scanstring fuel' r2 (u1 :: acc)
            end
          else
            match simple_escape e with
            | Some d => scanstring fuel' r' (d :: acc)
            | None => None
            end
        end
      else scanstring fuel' r (c :: acc)
    end
  end.

Fixpoint take_digits (s : pystr) : pystr * pystr :=
  match s with
  | c :: s' =>
    if is_digit c then let (ds, r) := take_digits s' in (c :: ds, r) else ([], s)
  | [] => ([], [])
  end.

Definition nat_of_digits (ds : pystr) : N :=
  fold_left (fun n c => (n * 10 + (c - 48))%N) ds 0%N.

(** A number: an optional minus sign; an integer part, either a single zero
    or digits that do not start with zero; an optional fraction, a dot and
    digits; an optional exponent, e or E with an optional sign and digits.
    A fraction or exponent with no digit is not part of the number.  With
    neither, the result is an [int]; [int] refuses more than 4300 digits
    (the limit of CPython 3.11 and later), and the error leaves the
    decoder. *)
Definition scan_number (s : pystr) : option (value * pystr) :=
  let (neg, s1) := match s with
                   | 45%N :: r => (true, r)
                   | _ => (false, s)
                   end in
  match s1 with
  | [] => None
  | c :: r =>
    if negb (is_digit c) then None
    else
      let (ip, r1) := if (c =? 48)%N then ([48%N], r) else take_digits s1 in
      let frac :=
        match r1 with
        | 46%N :: r2 =>
          match take_digits r2 with
          | ([], _) => None
          | (fd, r3) => Some (fd, r3)
          end
        | _ => None
        end in
      let r4 := match frac with Some (_, r3) => r3 | None => r1 end in
      let expo :=
        match r4 with
        | e :: r5 =>
          if ((e =? 101) || (e =? 69))%N then
            let (eneg, r6) :=
              match r5 with
              | 45%N :: r6 => (true, r6)
              | 43%N :: r6 => (false, r6)
              | _ => (false, r5)
              end in
            match take_digits r6 with
            | ([], _) => None
            | (ed, r7) =>
              let x := Z.of_N (nat_of_digits ed) in
              Some (if eneg then - x else x, r7)
            end
          else None
        | [] => None
        end in
      match frac, expo with
      | None, None =>
        if (4300 <? List.length ip)%nat then None
        else
          let n := Z.of_N (nat_of_digits ip) in
          Some (VInt (if neg then - n else n), r1)
      | _, _ =>
        let fd := match frac with Some (fd, _) => fd | None => [] end in
        let x := match expo with Some (x, _) => x | None => 0 end in
        let rest := match expo with Some (_, r7) => r7 | None => r4 end in
        Some (VFloat (FDec neg (nat_of_digits (ip ++ fd)) (x - Z.of_nat (List.length fd))),
              rest)
      end
  end.

(** [s] starts with [p]: what follows [p]. *)
Fixpoint after_prefix (p s : pystr) : option pystr :=
  match p, s with
  | [], _ => Some s
  | a :: p', b :: s' => if (a =? b)%N then after_prefix p' s' else None
  | _ :: _, [] => None
  end.

(** The elements of an array, from after the opening bracket and blanks. *)
Fixpoint scan_elements (scan : pystr -> option (value * pystr)) (fuel : nat)
    (s : pystr) (acc : list value) : option (value * pystr) :=
  match fuel with
  | O => None
  | S fuel' =>
    match scan s with
    | None => None
    | Some (v, r) =>
      match skip_ws r with
      | 93%N :: r' => Some (VList (rev (v :: acc)), r')
      | 44%N :: r' => scan_elements scan fuel' (skip_ws r') (v :: acc)
      | _ => None
      end
    end
  end.

(** The members of an object, from after the opening brace and blanks. *)
Fixpoint scan_members (scan : pystr -> option (value * pystr)) (fuel : nat)
    (s : pystr) (acc : pydict) : option (value * pystr) :=
  match fuel with
  | O => None
  | S fuel' =>
    match s with
    | 34%N :: r =>
      match scanstring (S (List.length r)) r [] with
      | None => None
      | Some (k, r1) =>
        match skip_ws r1 with
        | 58%N :: r2 =>
          match scan (skip_ws r2) with
          | None => None
          | Some (v, r3) =>
            let acc' := dict_set k v acc in
            match skip_ws r3 with
            | 125%N :: r' => Some (VDict acc', r')
            | 44%N :: r' => scan_members scan fuel' (skip_ws r') acc'
            | _ => None
            end
          end
        | _ => None
        end
      end
    | _ => None
    end
  end.

(** [scan_once]: one value at the start of [s]. *)
Fixpoint scan_once (fuel : nat) (s : pystr) : option (value * pystr) :=
  match fuel with
  | O => None
  | S fuel' =>
    match s with
    | [] => None
    | c :: r =>
      if (c =? 34)%N then
        match scanstring (S (List.length r)) r [] with
        | Some (str, r') => Some (VStr str, r')
        | None => None
        end
      else if (c =? 123)%N then
        match skip_ws r with
        | 125%N :: r' => Some (VDict [], r')
        | r' => scan_members (scan_once fuel') (S (List.length r')) r' []
        end
      else if (c =? 91)%N then
        match skip_ws r with
        | 93%N :: r' => Some (VList [], r')
        | r' => scan_elements (scan_once fuel') (S (List.length r')) r' []
        end
      else
        match after_prefix (Py.lit "null") s with
        | Some r' => Some (VNone, r')
        | None =>
        match after_prefix (Py.lit "true") s with
        | Some r' => Some (VBool true, r')
        | None =>
        match after_prefix (Py.lit "false") s with
        | Some r' => Some (VBool false, r')
        | None =>
        match scan_number s with
        | Some res => Some res
        | None =>
        match after_prefix (Py.lit "NaN") s with
        | Some r' => Some (VFloat FNaN, r')
        | None =>
        match after_prefix (Py.lit "Infinity") s with
        | Some r' => Some (VFloat (FInf false), r')
        | None =>
        match after_prefix (Py.lit "-Infinity") s with
        | Some r' => Some (VFloat (FInf true), r')
        | None => None
        end end end end end end end
    end
  end.

(** [json.loads(s)]: a byte order mark is refused; blanks may surround the
    one document; anything after it is an error. *)
Definition loads (s : pystr) : option value :=
  match s with
  | 65279%N :: _ => None
  | _ =>
    match scan_once (S (List.length s)) (skip_ws s) with
    | Some (v, r) => match skip_ws r with [] => Some v | _ => None end
    | None => None
    end
  end.

End Json.

(** ** The reference runtime: [repr] *)

Module Repr.

(** *** Floats: the shortest decimal that reads back as the same double *)

(** [p / q] rounded to the nearest integer, ties to even ([0 < q]). *)
Definition round_half_even (p q : Z) : Z :=
  let d := p / q in
  let r2 := 2 * (p mod q) in
  if r2 <? q then d
  else if q <? r2 then d + 1
  else if Z.even d then d else d + 1.

(** [p / (q * 2 ^ e)], rounded. *)
Definition scaled2 (p q e : Z) : Z :=
  if 0 <=? e then round_half_even p (q * 2 ^ e)
  else round_half_even (p * 2 ^ (- e)) q.

(** [b ^ k <= p / q], for a base [b]. *)
Definition ge_pow (b p q k : Z) : bool :=
  if 0 <=? k then q * b ^ k <=? p else q <=? p * b ^ (- k).

Definition floor_log2 (p q : Z) : Z :=
  let k := Z.log2 p - Z.log2 q in
  if ge_pow 2 p q k then k else k - 1.

(** The magnitude of a double: zero, infinite, or [m * 2 ^ e] with
    [m < 2 ^ 53] and [-1074 <= e <= 971]. *)
Inductive magnitude : Type :=
| MZero
| MInf
| MFin (m e : Z).

(** The double nearest to [p / q] ([0 < p], [0 < q]), ties to even. *)
Definition nearest_double (p q : Z) : magnitude :=
  let e := Z.max (floor_log2 p q - 52) (-1074) in
  let m := scaled2 p q e in
  if m =? 0 then MZero
  else
    let '(m', e') := if m =? 2 ^ 53 then (2 ^ 52, e + 1) else (m, e) in
    if 971 <? e' then MInf else MFin m' e'.

(** The double nearest to [c * 10 ^ k]. *)
Definition double_of_decimal (c k : Z) : magnitude :=
  if c =? 0 then MZero
  else if 0 <=? k then nearest_double (c * 10 ^ k) 1
  else nearest_double c (10 ^ (- k)).

Definition magnitude_eqb (a b : magnitude) : bool :=
  match a, b with
  | MZero, MZero => true
  | MInf, MInf => true
  | MFin m e, MFin m' e' => (m =? m') && (e =? e')
  | _, _ => false
  end.

(** [floor (log10 (p / q))], from the binary logarithm and one step of
    correction either way. *)
Definition floor_log10 (p q : Z) : Z :=
  let est := floor_log2 p q * 30103 / 100000 in
  if ge_pow 10 p q (est + 1) then est + 1
  else if ge_pow 10 p q est then est
  else est - 1.

(** With [n] digits: the decimal [c * 10 ^ k] nearest to [p / q] among the
    two next to it that read back as [d], when there is one. *)
Definition try_digits (d : magnitude) (p q : Z) (n : Z) : option (Z * Z) :=
  let k := floor_log10 p q - (n - 1) in
  let '(num, den) := if 0 <=? k then (p, q * 10 ^ k) else (p * 10 ^ (- k), q) in
  let lo := num / den in
  let hi := lo + 1 in
  let ok_lo := magnitude_eqb (double_of_decimal lo k) d in
  let ok_hi := magnitude_eqb (double_of_decimal hi k) d in
  let nearer := round_half_even num den in
  if ok_lo && ok_hi then Some (nearer, k)
  else if ok_lo then Some (lo, k)
  else if ok_hi then Some (hi, k)
  else None.

Fixpoint shortest_from (fuel : nat) (d : magnitude) (p q : Z) (n : Z) : Z * Z :=
  match fuel with
  | O => (0, 0)
  | S fuel' =>
    match try_digits d p q n with
    | Some ck => ck
    | None => shortest_from fuel' d p q (n + 1)
    end
  end.

Fixpoint strip_zeros (fuel : nat) (c k : Z) : Z * Z :=
  match fuel with
  | O => (c, k)
  | S fuel' =>
    if (c mod 10 =? 0) && negb (c =? 0) then strip_zeros fuel' (c / 10) (k + 1)
    else (c, k)
  end.

Definition zeros (n : Z) : pystr := repeat 48%N (Z.to_nat n).

(** The digits [ds] with the decimal point after the first [decpt] of them,
    as [float.__repr__] lays them out. *)
Definition layout (ds : pystr) (decpt : Z) : pystr :=
  let nd := Z.of_nat (List.length ds) in
  if (decpt <=? -4) || (16 <? decpt) then
    let x := decpt - 1 in
    let xs := Py.digits (Z.to_N (Z.abs x)) in
    let xs := if Z.abs x <? 10 then 48%N :: xs else xs in
    firstn 1 ds ++ (match skipn 1 ds with [] => [] | fr => 46%N :: fr end)
      ++ [101%N; if x <? 0 then 45%N else 43%N] ++ xs
  else if decpt <=? 0 then [48%N; 46%N] ++ zeros (- decpt) ++ ds
  else if nd <=? decpt then ds ++ zeros (decpt - nd) ++ [46%N; 48%N]
  else firstn (Z.to_nat decpt) ds ++ [46%N] ++ skipn (Z.to_nat decpt) ds.

Definition repr_magnitude (d : magnitude) : pystr :=
  match d with
  | MZero => Py.lit "0.0"
  | MInf => Py.lit "inf"
  | MFin m e =>
    let '(p, q) := if 0 <=? e then (m * 2 ^ e, 1) else (m, 2 ^ (- e)) in
    let '(c, k) := shortest_from 17 d p q 1 in
    let '(c', k') := strip_zeros 20 c k in
    let ds := Py.digits (Z.to_N c') in
    layout ds (Z.of_nat (List.length ds) + k')
  end.

Definition repr_float (f : pyfloat) : pystr :=
  match f with
  | FNaN => Py.lit "nan"
  | FInf neg => (if neg then [45%N] else []) ++ Py.lit "inf"
  | FDec neg m e =>
    (if neg then [45%N] else []) ++ repr_magnitude (double_of_decimal (Z.of_N m) e)
  end.

(** *** Strings *)

(** [str.isprintable] on one character.  Exact up to U+00FF; above, the
    separators, format characters and surrogates listed here are not
    printable and unassigned code points are not told apart. *)
Definition is_printable (c : N) : bool :=
  if (c <? 127)%N then (32 <=? c)%N
  else if (c <? 256)%N then (161 <=? c)%N && negb (c =? 173)%N
  else negb (Py.is_space c
             || ((8203 <=? c) && (c <=? 8207)) || ((8234 <=? c) && (c <=? 8238))
             || ((8288 <=? c) && (c <=? 8303)) || (c =? 65279)
             || ((55296 <=? c) && (c <=? 63743)) || ((65520 <=? c) && (c <=? 65531))
             || (1114111 <? c))%N.

Definition hex_digit (n : N) : N := if (n <? 10)%N then (48 + n)%N else (87 + n)%N.

Fixpoint hex_fixed (width : nat) (n : N) (acc : pystr) : pystr :=
  match width with
  | O => acc
  | S w => hex_fixed w (n / 16)%N (hex_digit (n mod 16) :: acc)
  end.

Definition escape_char (quote c : N) : pystr :=
  if ((c =? quote) || (c =? 92))%N then [92%N; c]
  else if (c =? 9)%N then [92%N; 116%N]
  else if (c =? 10)%N then [92%N; 110%N]
  else if (c =? 13)%N then [92%N; 114%N]
  else if is_printable c then [c]
  else if (c <? 256)%N then [92%N; 120%N] ++ hex_fixed 2 c []
  else if (c <? 65536)%N then [92%N; 117%N] ++ hex_fixed 4 c []
  else [92%N; 85%N] ++ hex_fixed 8 c [].

(** Single quotes, unless the string has one and has no double quote. *)
Definition repr_str (s : pystr) : pystr :=
  let has c := existsb (N.eqb c) s in
  let quote := if has 39%N && negb (has 34%N) then 34%N else 39%N in
  [quote] ++ List.concat (map (escape_char quote) s) ++ [quote].

(** *** Values *)

Fixpoint join (sep : pystr) (parts : list pystr) : pystr :=
  match parts with
  | [] => []
  | [x] => x
  | x :: rest => x ++ sep ++ join sep rest
  end.

Fixpoint repr (v : value) : pystr :=
  match v with
  | VNone => Py.lit "None"
  | VBool true => Py.lit "True"
  | VBool false => Py.lit "False"
  | VInt n => Py.str_of_int n
  | VFloat f => repr_float f
  | VStr s => repr_str s
  | VList items => [91%N] ++ join (Py.lit ", ") (map repr items) ++ [93%N]
  | VDict entries =>
    [123%N]
      ++ join (Py.lit ", ")
           (map (fun kv => repr_str (fst kv) ++ Py.lit ": " ++ repr (snd kv)) entries)
      ++ [125%N]
  end.

End Repr.

(** The reference runtime, in a process environment [env]. *)
#[global] Instance cpython (env : pystr -> option pystr) : PyRuntime := {
  json_loads := Json.loads;
  py_repr := Repr.repr;
  getenv := env
}.

(** JSON text of the examples, written with single quotes for the double
    quotes of the document. *)
Definition js : string -> pystr := Py.litq "'"%char.

(** ** Requests, responses and exceptions *)

(** [class OllamaRequest(BaseModel)]: every field is [Optional]. *)
Record OllamaRequest : Type := {
  prompt : option pystr;
  model : option pystr;
  max_tokens : option Z;
  temperature : option pyfloat;
  messages : option (list pydict)
}.

(** The request with every field at its declared default. *)
Definition default_request : OllamaRequest := {|
  prompt := None;
  model := Some (Py.lit "gemma3:270m");
  max_tokens := Some 512;
  temperature := Some (FDec false 7 (-1));
  messages := None
|}.

(** What the handler reads of an [httpx.Response]: [resp.status_code];
    [resp.text], the body decoded to a [str], undecodable bytes replaced; and
    the outcome of [resp.json()], [None] when it raises.  The library
    computes the two readings of the body from its bytes, each in its own
    way: a byte order mark stays in the text and is skipped by [json()], an
    undecodable byte is replaced in the text and refused by [json()].  They
    are independent fields, and a statement about every response covers
    every body and charset. *)
Record Response : Type := {
  status_code : Z;
  text : pystr;
  json : option value
}.

(** The exceptions of the program.  [ConnectError] is an
    [httpx.RequestError]; [RequestError] stands for every other one, with
    [str(e)]; [OtherException] for what is not an [httpx.RequestError]. *)
Inductive exception : Type :=
| ConnectError (message : pystr)
| RequestError (message : pystr)
| OtherException (message : pystr)
| HTTPException (status : Z) (detail : value).

Inductive Outcome (A : Type) : Type :=
| Returned (a : A)
| Raised (e : exception).

Arguments Returned {A} a.
Arguments Raised {A} e.

(** One [client.post(url, json=payload)] of a client built with [timeout]. *)
Record PostCall : Type := {
  post_url : pystr;
  post_json : value;
  post_timeout : Z
}.

(** The network: what a post returns or raises. *)
Definition Upstream : Type := PostCall -> Outcome Response.

(** A computation of the handler: it reads the network, appends the posts it
    makes to the log of posts, and returns or raises. *)
Definition M (A : Type) : Type :=
  Upstream -> list PostCall -> Outcome A * list PostCall.

Definition ret {A : Type} (a : A) : M A :=
  fun _ sent => (Returned a, sent).

Definition raise {A : Type} (e : exception) : M A :=
  fun _ sent => (Raised e, sent).

Definition bind {A B : Type} (m : M A) (k : A -> M B) : M B :=
  fun net sent =>
    match m net sent with
    | (Returned a, sent') => k a net sent'
    | (Raised e, sent') => (Raised e, sent')
    end.

(** [try: m / except ...: handler e]. *)
Definition try_except {A : Type} (m : M A) (handler : exception -> M A) : M A :=
  fun net sent =>
    match m net sent with
    | (Returned a, sent') => (Returned a, sent')
    | (Raised e, sent') => handler e net sent'
    end.

Definition client_post (url : pystr) (payload : value) (timeout : Z) : M Response :=
  fun net sent =>
    let call := {| post_url := url; post_json := payload; post_timeout := timeout |} in
    (net call, sent ++ [call]).

(** A run from an empty log. *)
Definition run {A : Type} (m : M A) (net : Upstream) : Outcome A * list PostCall :=
  m net [].

Notation "x <- m ;; k" := (bind m (fun x => k))
  (at level 61, m at next level, right associativity).

(** ** The program: constants *)

Definition unlines (ls : list pystr) : pystr :=
  List.concat (map (fun l => l ++ [10%N]) ls).

(** The lines of [WEBSITE_CONTEXT], between its opening and closing quotes; in these literals a caret stands for a double quote. *)
Definition WEBSITE_CONTEXT_lines : list pystr :=
  map (Py.litq "^"%char)
    ["KEY FACTS ABOUT LINDOKUHLE:";
    "";
    "Education:";
    "• Currently a First Year ICT Student at Durban University of Technology";
    "• Focus on Information Technology and Software Development";
    "";
    "Programming Skills:";
    "• Front-End Development: HTML and CSS";
    "• Programming Languages: Learning C++";
    "• Development Approach: Full-stack development aspirant";
    "• Learning Style: Multi-language parallel learning approach";
    "";
    "Professional Goals:";
    "• Aspiring Full-Stack Developer";
    "• Interested in Cybersecurity and System Protection";
    "• Focused on understanding app development and system architecture";
    "";
    "Unique Attributes:";
    "• Uses innovative stress management technique: switching between programming languages";
    "• Learning strategy: Treats web development as a continuous journey";
    "• Problem-solving approach: When faced with challenges in one language, temporarily switches to another";
    "• Motivation: Driven by curiosity about how applications work and systems are protected";
    "";
    "Career Interests:";
    "• Web Development (Both Front-end and Back-end)";
    "• Software Development";
    "• Cybersecurity";
    "• System Protection and Security";
    "";
    "Learning Philosophy:";
    "^For me, my curiosity drives my passion and my passion determines my dream. When one language becomes challenging, I switch to another as a stress relief technique, making the learning journey more manageable.^"]%string.

(** The lines of the template before the context. *)
Definition prompt_rules_lines : list pystr :=
  map (Py.litq "^"%char)
    ["You are an AI assistant for Lindokuhle's portfolio. Your primary goal is to answer questions based on the provided context. Follow these rules precisely:";
    "";
    "1. GREETING RULE:";
    "   - IF the user's question is a simple greeting (e.g., ^hi^, ^hello^, ^hey^), THEN respond with:";
    "     ^Hi! I'm Lindokuhle's AI assistant. I can tell you about Lindokuhle's programming skills, education at DUT, and journey in technology. What would you like to know?^";
    "   - DO NOT use the greeting for specific questions.";
    "";
    "2. QUESTION-ANSWERING RULE:";
    "   - FOR ALL OTHER questions, provide a direct and specific answer based on the context below.";
    "   - Start your response by directly addressing the user's question. For example, if asked ^How does Lindokuhle handle challenges?^, start with ^Lindokuhle handles programming challenges by...^.";
    "";
    "3. CONTEXT-ONLY RULE:";
    "   - You MUST base all answers on the following `KEY FACTS`:"]%string.

(** The lines of the template between the context and the question. *)
Definition prompt_guidance_lines : list pystr :=
  map (Py.litq "^"%char)
    ["   - If the information is not in the context, politely state that and offer to answer a question you *can* answer (e.g., ^While I don't have information on that, I can tell you about Lindokuhle's programming skills.^).";
    "";
    "4. TOPIC-SPECIFIC GUIDANCE:";
    "   - For questions about ^Programming Skills,^ focus on HTML, CSS, C++, and the multi-language learning approach.";
    "   - For questions about ^Learning Style,^ explain the unique stress management technique of switching between languages.";
    "   - For questions about ^Education,^ mention the ICT program at Durban University of Technology.";
    ""]%string.

(** The lines of the template after the question. *)
Definition prompt_task_lines : list pystr :=
  map (Py.litq "^"%char)
    ["";
    "Your task is to analyze the user's question and decide whether to give the greeting or a specific answer from the context."]%string.

Definition WEBSITE_CONTEXT : pystr := [10%N] ++ unlines WEBSITE_CONTEXT_lines.

(** [DEFAULT_OLLAMA_URL = os.getenv("OLLAMA_URL", ...)]. *)
Definition DEFAULT_OLLAMA_URL {R : PyRuntime} : pystr :=
  match getenv (Py.lit "OLLAMA_URL") with
  | Some u => u
  | None => Py.lit "http://localhost:11434/api/generate"
  end.

(** ** The program: [call_ollama] *)

(** [[l.strip() for l in text.splitlines() if l.strip()]]. *)
Definition stripped_lines (body : pystr) : list pystr :=
  map Py.strip
    (filter (fun l => Py.str_truthy (Py.strip l)) (Py.splitlines body)).

(** [isinstance(obj, dict) and k in obj and obj[k]]: the value [obj[k]] when
    the test holds. *)
Definition truthy_item (k : pystr) (obj : value) : option value :=
  match obj with
  | VDict d =>
    match dict_get k d with
    | Some v => if truthy v then Some v else None
    | None => None
    end
  | _ => None
  end.

(** One turn of [for line in lines], on [(collected, last_obj)]. *)
Definition loop_body {R : PyRuntime} (st : list pystr * value) (line : pystr)
    : list pystr * value :=
  let '(collected, last_obj) := st in
  match json_loads line with
  | None => (collected, last_obj)
  | Some obj =>
    match truthy_item (Py.lit "response") obj with
    | Some r => (collected ++ [py_str r], obj)
    | None =>
      match truthy_item (Py.lit "text") obj with
      | Some t => (collected ++ [py_str t], obj)
      | None => (collected, obj)
      end
    end
  end.

(** The loop, from [collected = []] and [last_obj = None]. *)
Definition collect {R : PyRuntime} (lines : list pystr) : list pystr * value :=
  fold_left loop_body lines ([], VNone).

(** The branch [if len(lines) > 1]. *)
Definition aggregate {R : PyRuntime} (lines : list pystr) : value :=
  let '(collected, last_obj) := collect lines in
  let joined := Py.join_empty collected in
  let result := [(Py.lit "text", VStr joined);
                 (Py.lit "raw_lines", VList (map VStr lines))] in
  VDict (if truthy last_obj then dict_set (Py.lit "last") last_obj result
         else result).

(** [call_ollama] from [text = resp.text] on: the response normalizer. *)
Definition normalize {R : PyRuntime} (resp : Response) : value :=
  let lines := stripped_lines (text resp) in
  if (1 <? List.length lines)%nat then aggregate lines
  else
    match json resp with
    | Some parsed => parsed
    | None => VDict [(Py.lit "text", VStr (text resp))]
    end.

Definition call_ollama {R : PyRuntime} (payload : value) (timeout : Z) : M value :=
  resp <- try_except (client_post DEFAULT_OLLAMA_URL payload timeout)
            (fun e =>
               match e with
               | ConnectError _ =>
                 raise (HTTPException 503
                          (VStr (Py.lit "Cannot connect to Ollama at "
                                   ++ DEFAULT_OLLAMA_URL
                                   ++ Py.lit ". Is Ollama running?")))
               | RequestError msg =>
                 raise (HTTPException 502
                          (VStr (Py.lit "Ollama request error: " ++ msg)))
               | _ => raise e
               end) ;;
  if negb (status_code resp =? 200) then
    let data :=
      match json resp with
      | Some d => d
      | None => VDict [(Py.lit "status_code", VInt (status_code resp));
                       (Py.lit "text", VStr (text resp))]
      end in
    raise (HTTPException 502 (VDict [(Py.lit "ollama_response", data)]))
  else ret (normalize resp).

(** ** The program: [forward_to_ollama] *)

Definition opt_str_truthy (s : option pystr) : bool :=
  match s with Some x => Py.str_truthy x | None => false end.

Definition opt_list_truthy {A : Type} (l : option (list A)) : bool :=
  match l with Some (_ :: _) => true | _ => false end.

Definition opt_int_truthy (n : option Z) : bool :=
  match n with Some x => negb (x =? 0) | None => false end.

(** The replacement field of an f-string, on an optional [str]. *)
Definition format_opt_str (s : option pystr) : pystr :=
  match s with Some x => x | None => Py.lit "None" end.

Definition enhanced_prompt (req : OllamaRequest) : pystr :=
  unlines prompt_rules_lines ++ WEBSITE_CONTEXT ++ [10%N]
    ++ unlines prompt_guidance_lines
    ++ Py.lit "User question: " ++ format_opt_str (prompt req) ++ [10%N]
    ++ unlines prompt_task_lines.

Definition value_of_opt_str (s : option pystr) : value :=
  match s with Some x => VStr x | None => VNone end.

(** The dictionary [payload] that the handler builds and posts. *)
Definition build_payload (req : OllamaRequest) : pydict :=
  let payload := [(Py.lit "model", value_of_opt_str (model req))] in
  let payload :=
    if opt_list_truthy (messages req) then
      dict_set (Py.lit "messages")
        (VList (map VDict (match messages req with Some ms => ms | None => [] end)))
        payload
    else dict_set (Py.lit "prompt") (VStr (enhanced_prompt req)) payload in
  match max_tokens req with
  | Some n => if negb (n =? 0) then dict_set (Py.lit "max_tokens") (VInt n) payload
              else payload
  | None => payload
  end.

Definition forward_to_ollama {R : PyRuntime} (req : OllamaRequest) : M value :=
  if negb (opt_str_truthy (prompt req)) && negb (opt_list_truthy (messages req)) then
    raise (HTTPException 400
             (VStr (Py.lit "Provide a 'prompt' string or 'messages' list.")))
  else
    result <- call_ollama (VDict (build_payload req)) 30 ;;
    ret (VDict [(Py.lit "ok", VBool true); (Py.lit "ollama", result)]).

Definition health_check : value :=
  VDict [(Py.lit "status", VStr (Py.lit "ok"))].

(** ** Vocabulary of the specification *)

(** The one post that [call_ollama] makes. *)
Definition the_post {R : PyRuntime} (payload : value) (timeout : Z) : PostCall :=
  {| post_url := DEFAULT_OLLAMA_URL; post_json := payload; post_timeout := timeout |}.

(** A field of a request is absent or empty. *)
Definition absent_or_empty {A : Type} (f : option (list A)) : Prop :=
  f = None \/ f = Some [].

(** A field of a request is supplied: present and not empty. *)
Definition supplied {A : Type} (f : option (list A)) : Prop :=
  exists x rest, f = Some (x :: rest).

(** A request that passes the handler's check. *)
Definition accepted (req : OllamaRequest) : bool :=
  opt_str_truthy (prompt req) || opt_list_truthy (messages req).

(** A success status of HTTP: the class 2xx. *)
Definition http_success (status : Z) : bool :=
  (200 <=? status) && (status <? 300).

(** The lines that parse as JSON, as their values, in line order. *)
Definition parsed_lines {R : PyRuntime} (lines : list pystr) : list value :=
  flat_map (fun l => match json_loads l with Some v => [v] | None => [] end) lines.

(** What one parsed line adds to the text: its non-empty [response] field,
    or failing that its non-empty [text] field, as a string. *)
Definition fragment {R : PyRuntime} (v : value) : list pystr :=
  match v with
  | VDict d =>
    match dict_get (Py.lit "response") d with
    | Some r =>
      if truthy r then [py_str r]
      else match dict_get (Py.lit "text") d with
           | Some t => if truthy t then [py_str t] else []
           | None => []
           end
    | None =>
      match dict_get (Py.lit "text") d with
      | Some t => if truthy t then [py_str t] else []
      | None => []
      end
    end
  | _ => []
  end.

Definition fragments {R : PyRuntime} (lines : list pystr) : list pystr :=
  flat_map fragment (parsed_lines lines).

(** The last element of a list, if any. *)
Fixpoint last_opt {A : Type} (l : list A) : option A :=
  match l with
  | [] => None
  | x :: l' => match last_opt l' with Some y => Some y | None => Some x end
  end.

(** The last successfully parsed value, if any. *)
Definition last_parsed {R : PyRuntime} (lines : list pystr) : option value :=
  last_opt (parsed_lines lines).

(** The detail of the bad-gateway error for a response: the body parsed as
    JSON when [resp.json()] returns, otherwise the raw status code and
    text. *)
Definition bad_status_detail (resp : Response) : value :=
  VDict [(Py.lit "ollama_response",
          match json resp with
          | Some parsed => parsed
          | None => VDict [(Py.lit "status_code", VInt (status_code resp));
                           (Py.lit "text", VStr (text resp))]
          end)].

(** The fixed text before and after the user's prompt in the template. *)
Definition template_before : pystr :=
  unlines prompt_rules_lines ++ WEBSITE_CONTEXT ++ [10%N]
    ++ unlines prompt_guidance_lines ++ Py.lit "User question: ".

Definition template_after : pystr := [10%N] ++ unlines prompt_task_lines.

(** A request with another temperature. *)
Definition with_temperature (t : option pyfloat) (req : OllamaRequest) : OllamaRequest :=
  {| prompt := prompt req; model := model req; max_tokens := max_tokens req;
     temperature := t; messages := messages req |}.

(** ** Fixtures of the closed examples *)

(** No environment variable is set. *)
Definition no_env : pystr -> option pystr := fun _ => None.

Definition reference : PyRuntime := cpython no_env.

Definition ask (question : string) : OllamaRequest :=
  {| prompt := Some (Py.lit question); model := model default_request;
     max_tokens := max_tokens default_request;
     temperature := temperature default_request; messages := None |}.

(** The response with [status] to a body of ASCII characters: its text is
    the body, and [json()] is what the reference decoder makes of it. *)
Definition ascii_response (status : Z) (body : pystr) : Response :=
  {| status_code := status; text := body; json := Json.loads body |}.

(** An upstream that answers every post with [status] and the ASCII [body]. *)
Definition answers (status : Z) (body : pystr) : Upstream :=
  fun _ => Returned (ascii_response status body).

(** An upstream that refuses the connection. *)
Definition refuses : Upstream :=
  fun _ => Raised (ConnectError (Py.lit "All connection attempts failed")).

Definition two_lines (a b : string) : pystr := js a ++ [10%N] ++ js b.

Definition ok_response (body : pystr) : Response := ascii_response 200 body.

(** Two responses on which the readings of the body differ.  The bytes of
    the first are a byte order mark and a JSON object: the mark is in the
    text, and [json()] skips it.  A byte of the second is no UTF-8: the
    text has U+FFFD in its place, where the reference decoder reads a
    string, and [json()] raises. *)
Definition marked_response (status : Z) : Response :=
  {| status_code := status;
     text := 65279%N :: js "{'response':'Hello'}";
     json := Some (VDict [(Py.lit "response", VStr (Py.lit "Hello"))]) |}.

Definition undecodable_response : Response :=
  {| status_code := 200;
     text := js "{'response':'" ++ [65533%N] ++ js "'}";
     json := None |}.

(** Bodies: one JSON object; two streamed objects; two empty objects; two
    numbers; a malformed line between two streamed objects; plain text. *)
Definition hello_body : pystr := js "{'response':'Hello'}".

Definition streamed_body : pystr := two_lines "{'response':'Hel'}" "{'response':'lo'}".

Definition empty_objects_body : pystr := two_lines "{}" "{}".

Definition numbers_body : pystr := two_lines "1" "2".

Definition mixed_body : pystr :=
  js "{'response':'Hel'}" ++ [10%N] ++ Py.lit "not json" ++ [10%N]
    ++ js "{'response':'lo'}".

Definition plain_body : pystr := Py.lit "plain text".

(** The payload and the post of the request [ask "Hello"]. *)
Definition hello_payload : value := VDict (build_payload (ask "Hello")).

Definition hello_post : PostCall := the_post (R := reference) hello_payload 30.

(** A request with another prompt. *)
Definition with_prompt (p : option pystr) (req : OllamaRequest) : OllamaRequest :=
  {| prompt := p; model := model req; max_tokens := max_tokens req;
     temperature := temperature req; messages := messages req |}.

(** An exception that [call_ollama] does not handle: neither a
    [ConnectError] nor another [RequestError]. *)
Definition unhandled (e : exception) : bool :=
  match e with
  | ConnectError _ => false
  | RequestError _ => false
  | _ => true
  end.

(** An upstream on which every post times out. *)
Definition times_out : Upstream :=
  fun _ => Raised (RequestError (Py.lit "timed out")).

(** A chat request with one user message. *)
Definition chat (content : string) : OllamaRequest :=
  {| prompt := None; model := Some (Py.lit "chat-model"); max_tokens := None;
     temperature := None;
     messages := Some [[(Py.lit "role", VStr (Py.lit "user"));
                        (Py.lit "content", VStr (Py.lit content))]] |}.

(** Two lines, neither of them JSON. *)
Definition garbage_body : pystr := Py.lit "foo" ++ [10%N] ++ Py.lit "bar".

(** A line of a stream of the upstream service: a JSON object whose
    [response] is the string [chunk], possibly empty, and that has no [text]
    key. *)
Definition response_chunk {R : PyRuntime} (line chunk : pystr) : Prop :=
  exists d : pydict,
    json_loads line = Some (VDict d)
    /\ dict_get (Py.lit "response") d = Some (VStr chunk)
    /\ dict_get (Py.lit "text") d = None.

(** A body of blanks only, on two lines. *)
Definition blank_body : pystr := [32; 32; 10; 9]%N.

(** A stream of three chunks, the last one empty. *)
Definition finished_stream : pystr :=
  js "{'response':'Hel','done':false}" ++ [10%N]
    ++ js "{'response':'lo','done':false}" ++ [10%N]
    ++ js "{'response':'','done':true}".

(** ** Verification *)

Section Normalizer.

Context {R : PyRuntime}.

(** The loop body reads a line through [fragment] only. *)
Lemma loop_body_parsed (collected : list pystr) (last_obj : value)
    (line : pystr) (obj : value) :
  json_loads line = Some obj ->
  loop_body (collected, last_obj) line = (collected ++ fragment obj, obj).
Proof.
  intros Hparse. unfold loop_body. rewrite Hparse.
  destruct obj as [ | b | n | f | s | items | d ];
    simpl; try (rewrite app_nil_r; reflexivity).
  destruct (dict_get (Py.lit "response") d) as [r | ] eqn:Hr.
  - destruct (truthy r); [reflexivity | ].
    destruct (dict_get (Py.lit "text") d) as [t | ]; [ | now rewrite app_nil_r].
    destruct (truthy t); [reflexivity | now rewrite app_nil_r].
  - destruct (dict_get (Py.lit "text") d) as [t | ]; [ | now rewrite app_nil_r].
    destruct (truthy t); [reflexivity | now rewrite app_nil_r].
Qed.

Lemma loop_body_skipped (st : list pystr * value) (line : pystr) :
  json_loads line = None -> loop_body st line = st.
Proof.
  intros Hfail. destruct st as [collected last_obj].
  unfold loop_body. now rewrite Hfail.
Qed.

(** The loop from any state: the fragments are appended in line order, and
    the tracked value is the last parsed one, or stays what it was. *)
Lemma fold_loop_body (lines : list pystr) :
  forall (collected : list pystr) (last_obj : value),
    fold_left loop_body lines (collected, last_obj)
    = (collected ++ fragments lines,
       match last_parsed lines with Some v => v | None => last_obj end).
Proof.
  induction lines as [ | line lines IH]; intros collected last_obj.
  - simpl. now rewrite app_nil_r.
  - cbn [fold_left]. unfold fragments, last_parsed, parsed_lines in *.
    cbn [flat_map].
    destruct (json_loads line) as [obj | ] eqn:Hparse.
    + rewrite (loop_body_parsed _ _ _ _ Hparse), IH.
      simpl. rewrite app_assoc.
      destruct (last_opt _); reflexivity.
    + rewrite (loop_body_skipped _ _ Hparse), IH. reflexivity.
Qed.

Lemma collect_spec (lines : list pystr) :
  collect lines
  = (fragments lines, match last_parsed lines with Some v => v | None => VNone end).
Proof. unfold collect. now rewrite fold_loop_body. Qed.

(** The result of the multi-line branch, key by key. *)
Lemma aggregate_spec (lines : list pystr) :
  aggregate lines
  = VDict ([(Py.lit "text", VStr (List.concat (fragments lines)));
            (Py.lit "raw_lines", VList (map VStr lines))]
           ++ match last_parsed lines with
              | Some v => if truthy v then [(Py.lit "last", v)] else []
              | None => []
              end).
Proof.
  unfold aggregate. rewrite collect_spec.
  destruct (last_parsed lines) as [v | ]; [ | reflexivity].
  destruct (truthy v); reflexivity.
Qed.

End Normalizer.

(** *** The response normalizer *)

Section NormalizerClaims.

Context {R : PyRuntime}.

(** X11: for every upstream body that splits into more than one non-empty
    trimmed line, normalization returns the object whose [text] is the
    concatenation, in line order and with no separator, of the non-empty
    [response] field (or, failing that, the non-empty [text] field) of each
    line that parses as JSON, whose [raw_lines] is the list of all trimmed
    lines, and whose third key, [last], is there only under the truth test
    of the code, holding the last successfully parsed value. *)
Theorem normalize_multi_line (resp : Response) :
  (1 <? List.length (stripped_lines (text resp)))%nat = true ->
  normalize resp
  = VDict ([(Py.lit "text",
             VStr (List.concat (fragments (stripped_lines (text resp)))));
            (Py.lit "raw_lines", VList (map VStr (stripped_lines (text resp))))]
           ++ match last_parsed (stripped_lines (text resp)) with
              | Some v => if truthy v then [(Py.lit "last", v)] else []
              | None => []
              end).
Proof.
  intros Hmulti. unfold normalize. rewrite Hmulti. apply aggregate_spec.
Qed.

(** C10: in the multi-line case the result has a [last] key exactly when the
    last successfully parsed value is truthy, and the key then holds that
    value, object or not; when the last parsed value is falsy (an empty
    object, 0, an empty string, false or null) or no line parsed, the key is
    omitted. *)
Theorem last_key_iff_truthy (resp : Response) :
  (1 <? List.length (stripped_lines (text resp)))%nat = true ->
  exists d : pydict,
    normalize resp = VDict d
    /\ (forall v : value,
          dict_get (Py.lit "last") d = Some v
          <-> last_parsed (stripped_lines (text resp)) = Some v /\ truthy v = true)
    /\ (dict_get (Py.lit "last") d = None
        <-> last_parsed (stripped_lines (text resp)) = None
            \/ exists v : value,
                 last_parsed (stripped_lines (text resp)) = Some v
                 /\ truthy v = false)
    /\ truthy (VDict []) = false /\ truthy (VInt 0) = false
    /\ truthy (VStr []) = false /\ truthy (VBool false) = false
    /\ truthy VNone = false.
Proof.
  intros Hmulti. eexists. split.
  - unfold normalize. rewrite Hmulti. apply aggregate_spec.
  - destruct (last_parsed (stripped_lines (text resp))) as [v0 | ] eqn:Hlast.
    + destruct (truthy v0) eqn:Htruthy.
      * split; [ | split; [ | repeat split]].
        -- intros v. change (Some v0 = Some v <-> Some v0 = Some v /\ truthy v = true).
           split.
           ++ intros Heq. injection Heq as <-. now split.
           ++ now intros [Heq _].
        -- change (Some v0 = None <->
                   Some v0 = None \/ exists v, Some v0 = Some v /\ truthy v = false).
           split; [discriminate | ].
           intros [Hnone | [v [Heq Hfalse]]]; [discriminate | ].
           injection Heq as <-. congruence.
      * split; [ | split; [ | repeat split]].
        -- intros v. change (None = Some v <-> Some v0 = Some v /\ truthy v = true).
           split; [discriminate | ].
           intros [Heq Htrue]. injection Heq as <-. congruence.
        -- change (@None value = None <->
                   Some v0 = None \/ exists v, Some v0 = Some v /\ truthy v = false).
           split; [ | reflexivity].
           intros _. right. now exists v0.
    + split; [ | split; [ | repeat split]].
      * intros v. change (None = Some v <-> None = Some v /\ truthy v = true).
        split; [discriminate | now intros [Heq _]].
      * change (@None value = None <->
                @None value = None \/ exists v, None = Some v /\ truthy v = false).
        split; [now left | reflexivity].
Qed.

(** C4: for every upstream body with at most one non-empty trimmed line, if
    the whole body parses as one JSON document, that is if [resp.json()]
    returns, normalization returns the parsed value unchanged, and if it
    does not parse normalization returns the object whose only key, [text],
    holds the raw body text. *)
Theorem normalize_single_document (resp : Response) :
  (1 <? List.length (stripped_lines (text resp)))%nat = false ->
  (forall parsed : value,
      json resp = Some parsed -> normalize resp = parsed)
  /\ (json resp = None ->
      normalize resp = VDict [(Py.lit "text", VStr (text resp))]).
Proof.
  intros Hsingle. unfold normalize. rewrite Hsingle. split.
  - intros parsed Hparse. now rewrite Hparse.
  - intros Hfail. now rewrite Hfail.
Qed.

End NormalizerClaims.

(** *** The outbound call *)

Section OutboundCall.

Context {R : PyRuntime}.

(** [call_ollama] makes exactly one post, and its outcome is decided by what
    the post does. *)
Lemma call_ollama_outcome (payload : value) (timeout : Z) (net : Upstream)
    (sent : list PostCall) :
  call_ollama payload timeout net sent
  = (match net (the_post payload timeout) with
     | Returned resp =>
       if status_code resp =? 200 then Returned (normalize resp)
       else Raised (HTTPException 502 (bad_status_detail resp))
     | Raised (ConnectError _) =>
       Raised (HTTPException 503
                 (VStr (Py.lit "Cannot connect to Ollama at " ++ DEFAULT_OLLAMA_URL
                          ++ Py.lit ". Is Ollama running?")))
     | Raised (RequestError msg) =>
       Raised (HTTPException 502 (VStr (Py.lit "Ollama request error: " ++ msg)))
     | Raised e => Raised e
     end,
     sent ++ [the_post payload timeout]).
Proof.
  unfold call_ollama, bind, try_except, client_post, the_post.
  destruct (net _) as [resp | e].
  - destruct (status_code resp =? 200); reflexivity.
  - destruct e; reflexivity.
Qed.

(** C2 (amended): for every upstream response whose status is exactly 200,
    normalization proceeds on the body; for every response with any other
    status, other statuses of the class 2xx included, the call fails with a
    bad-gateway (502) error whose detail embeds the body parsed as JSON when
    possible, that is when [resp.json()] returns, otherwise the raw status
    code and text. *)
Theorem status_200_decides (payload : value) (timeout : Z) (net : Upstream)
    (sent : list PostCall) (resp : Response) :
  net (the_post payload timeout) = Returned resp ->
  (status_code resp = 200 ->
   call_ollama payload timeout net sent
   = (Returned (normalize resp), sent ++ [the_post payload timeout]))
  /\ (status_code resp <> 200 ->
      call_ollama payload timeout net sent
      = (Raised (HTTPException 502 (bad_status_detail resp)),
         sent ++ [the_post payload timeout])).
Proof.
  intros Hpost. rewrite call_ollama_outcome, Hpost. split; intros Hstatus.
  - now rewrite Hstatus.
  - destruct (Z.eqb_spec (status_code resp) 200); [contradiction | reflexivity].
Qed.

(** C8: for every upstream response with the success status 200, whatever
    its body, the call returns normally with the normalized body; in the
    multi-line case a line that fails to parse as JSON is skipped, the loop
    ending in the state it reaches without that line; and when the body is
    not multi-line and [resp.json()] raises, the result is the object whose
    only key, [text], holds the raw body text. *)
Theorem malformed_body_never_raises (payload : value) (timeout : Z)
    (net : Upstream) (sent : list PostCall) (resp : Response) :
  net (the_post payload timeout) = Returned resp ->
  status_code resp = 200 ->
  call_ollama payload timeout net sent
  = (Returned (normalize resp), sent ++ [the_post payload timeout])
  /\ (forall (before after : list pystr) (bad : pystr),
         json_loads bad = None ->
         collect (before ++ bad :: after) = collect (before ++ after))
  /\ ((1 <? List.length (stripped_lines (text resp)))%nat = false ->
      json resp = None ->
      normalize resp = VDict [(Py.lit "text", VStr (text resp))]).
Proof.
  intros Hpost Hstatus. split; [ | split].
  - rewrite call_ollama_outcome, Hpost, Hstatus. reflexivity.
  - intros before after bad Hbad. unfold collect.
    rewrite !fold_left_app. cbn [fold_left].
    now rewrite (loop_body_skipped _ _ Hbad).
  - intros Hsingle Hfail. unfold normalize. now rewrite Hsingle, Hfail.
Qed.

End OutboundCall.

(** *** The request handler *)

Section Handler.

Context {R : PyRuntime}.

Lemma absent_or_empty_str (s : option pystr) :
  absent_or_empty s -> opt_str_truthy s = false.
Proof. now intros [-> | ->]. Qed.

Lemma absent_or_empty_list {A : Type} (l : option (list A)) :
  absent_or_empty l -> opt_list_truthy l = false.
Proof. now intros [-> | ->]. Qed.

(** An accepted request goes to [call_ollama] with the payload built from
    it and the timeout 30. *)
Lemma forward_accepted (req : OllamaRequest) (net : Upstream)
    (sent : list PostCall) :
  accepted req = true ->
  forward_to_ollama req net sent
  = match call_ollama (VDict (build_payload req)) 30 net sent with
    | (Returned result, sent') =>
      (Returned (VDict [(Py.lit "ok", VBool true); (Py.lit "ollama", result)]), sent')
    | (Raised e, sent') => (Raised e, sent')
    end.
Proof.
  unfold accepted, forward_to_ollama. intros Hacc.
  destruct (opt_str_truthy (prompt req)), (opt_list_truthy (messages req));
    try discriminate; reflexivity.
Qed.

(** C1 (amended): for every request with a prompt or messages present, when
    the outbound call succeeds with a normalized result, the handler returns
    the object with the keys [ok], holding true, and [ollama], holding that
    result; the object has no key [result]. *)
Theorem handler_returns_under_ollama (req : OllamaRequest) (net : Upstream)
    (sent sent' : list PostCall) (result : value) :
  accepted req = true ->
  call_ollama (VDict (build_payload req)) 30 net sent = (Returned result, sent') ->
  exists d : pydict,
    forward_to_ollama req net sent = (Returned (VDict d), sent')
    /\ d = [(Py.lit "ok", VBool true); (Py.lit "ollama", result)]
    /\ dict_get (Py.lit "ollama") d = Some result
    /\ dict_get (Py.lit "result") d = None.
Proof.
  intros Hacc Hcall. eexists. split; [ | split; [reflexivity | split; reflexivity]].
  now rewrite (forward_accepted _ _ _ Hacc), Hcall.
Qed.

(** C5: for every request in which both [prompt] and [messages] are absent
    or empty, the handler fails with a bad-request (400) error and the log of
    posts is left as it was: no outbound call is made. *)
Theorem rejects_without_prompt_and_messages (req : OllamaRequest)
    (net : Upstream) (sent : list PostCall) :
  absent_or_empty (prompt req) ->
  absent_or_empty (messages req) ->
  forward_to_ollama req net sent
  = (Raised (HTTPException 400
               (VStr (Py.lit "Provide a 'prompt' string or 'messages' list."))),
     sent).
Proof.
  intros Hprompt Hmessages. unfold forward_to_ollama.
  rewrite (absent_or_empty_str _ Hprompt), (absent_or_empty_list _ Hmessages).
  reflexivity.
Qed.

(** C7: for every accepted request whose post to the upstream service fails
    to connect, the handler fails with a service-unavailable (503) error
    whose detail string contains the configured upstream URL, after the one
    post to that URL. *)
Theorem unreachable_upstream_is_503 (req : OllamaRequest) (net : Upstream)
    (sent : list PostCall) (message : pystr) :
  accepted req = true ->
  net (the_post (VDict (build_payload req)) 30) = Raised (ConnectError message) ->
  exists detail : pystr,
    forward_to_ollama req net sent
    = (Raised (HTTPException 503 (VStr detail)),
       sent ++ [the_post (VDict (build_payload req)) 30])
    /\ Py.contains detail DEFAULT_OLLAMA_URL
    /\ post_url (the_post (VDict (build_payload req)) 30) = DEFAULT_OLLAMA_URL.
Proof.
  intros Hacc Hpost. eexists. split; [ | split; [ | reflexivity]].
  - rewrite (forward_accepted _ _ _ Hacc), call_ollama_outcome, Hpost. reflexivity.
  - now exists (Py.lit "Cannot connect to Ollama at "), (Py.lit ". Is Ollama running?").
Qed.

End Handler.

(** *** The upstream payload *)

Section Payload.

Context {R : PyRuntime}.

(** The payload before [max_tokens] is attached. *)
Lemma build_payload_shape (req : OllamaRequest) :
  build_payload req
  = [(Py.lit "model", value_of_opt_str (model req));
     if opt_list_truthy (messages req) then
       (Py.lit "messages",
        VList (map VDict (match messages req with Some ms => ms | None => [] end)))
     else (Py.lit "prompt", VStr (enhanced_prompt req))]
    ++ match max_tokens req with
       | Some n => if n =? 0 then [] else [(Py.lit "max_tokens", VInt n)]
       | None => []
       end.
Proof.
  unfold build_payload.
  destruct (opt_list_truthy (messages req));
    destruct (max_tokens req) as [n | ]; try reflexivity;
    destruct (n =? 0); reflexivity.
Qed.

Lemma enhanced_prompt_wraps (req : OllamaRequest) (question : pystr) :
  prompt req = Some question ->
  enhanced_prompt req = template_before ++ question ++ template_after.
Proof.
  intros Hq. unfold enhanced_prompt, template_before, template_after.
  rewrite Hq. cbn [format_opt_str]. now rewrite <- !app_assoc.
Qed.

(** C6: for every accepted request the payload that is posted has exactly
    one of [prompt] and [messages]: when [messages] is supplied it is
    attached verbatim and [prompt] is omitted; otherwise the prompt, wrapped
    in the fixed template, is attached and [messages] is omitted; [model] is
    copied through, and [max_tokens] is attached only when provided and
    non-zero. *)
Theorem payload_mirrors_request_mode (req : OllamaRequest) (net : Upstream)
    (sent : list PostCall) :
  accepted req = true ->
  snd (forward_to_ollama req net sent)
  = sent ++ [the_post (VDict (build_payload req)) 30]
  /\ dict_get (Py.lit "model") (build_payload req)
     = Some (value_of_opt_str (model req))
  /\ (supplied (messages req) ->
      dict_get (Py.lit "messages") (build_payload req)
      = Some (VList (map VDict (match messages req with
                                | Some ms => ms
                                | None => []
                                end)))
      /\ dict_get (Py.lit "prompt") (build_payload req) = None)
  /\ (absent_or_empty (messages req) ->
      exists question : pystr,
        prompt req = Some question
        /\ dict_get (Py.lit "prompt") (build_payload req)
           = Some (VStr (template_before ++ question ++ template_after))
        /\ dict_get (Py.lit "messages") (build_payload req) = None)
  /\ dict_get (Py.lit "max_tokens") (build_payload req)
     = match max_tokens req with
       | Some n => if n =? 0 then None else Some (VInt n)
       | None => None
       end.
Proof.
  intros Hacc. split; [ | split; [ | split; [ | split]]].
  - rewrite (forward_accepted _ _ _ Hacc), call_ollama_outcome.
    destruct (net _) as [resp | e].
    + destruct (status_code resp =? 200); reflexivity.
    + destruct e; reflexivity.
  - rewrite build_payload_shape. reflexivity.
  - intros (m & ms & Hm). rewrite build_payload_shape, Hm. cbn [opt_list_truthy].
    split; [reflexivity | ].
    destruct (max_tokens req) as [n | ]; [destruct (n =? 0) | ]; reflexivity.
  - intros Hempty. unfold accepted in Hacc.
    rewrite (absent_or_empty_list _ Hempty), orb_false_r in Hacc.
    destruct (prompt req) as [question | ] eqn:Hq; [ | discriminate].
    exists question. split; [reflexivity | ].
    rewrite build_payload_shape, (absent_or_empty_list _ Hempty).
    rewrite (enhanced_prompt_wraps _ _ Hq).
    split; [reflexivity | ].
    destruct (max_tokens req) as [n | ]; [destruct (n =? 0) | ]; reflexivity.
  - rewrite build_payload_shape.
    destruct (opt_list_truthy (messages req));
      (destruct (max_tokens req) as [n | ]; [destruct (n =? 0) | ]; reflexivity).
Qed.

(** C9: the [temperature] of a request is never forwarded: the payload has
    no [temperature] key, every post of the handler carries such a payload,
    and the handler does the same whatever temperature is supplied. *)
Theorem temperature_not_forwarded (req : OllamaRequest) (t : option pyfloat) :
  dict_get (Py.lit "temperature") (build_payload req) = None
  /\ build_payload (with_temperature t req) = build_payload req
  /\ (forall net : Upstream,
         Forall (fun call : PostCall =>
                   exists d : pydict,
                     post_json call = VDict d
                     /\ dict_get (Py.lit "temperature") d = None)
                (snd (run (forward_to_ollama req) net)))
  /\ (forall (net : Upstream) (sent : list PostCall),
         forward_to_ollama (with_temperature t req) net sent
         = forward_to_ollama req net sent).
Proof.
  assert (Hkey : dict_get (Py.lit "temperature") (build_payload req) = None).
  { rewrite build_payload_shape.
    destruct (opt_list_truthy (messages req));
      (destruct (max_tokens req) as [n | ]; [destruct (n =? 0) | ]; reflexivity). }
  assert (Hsame : build_payload (with_temperature t req) = build_payload req).
  { destruct req as [p m mt t0 ms].
    unfold build_payload, enhanced_prompt, with_temperature.
    cbn [prompt model max_tokens messages]. reflexivity. }
  split; [exact Hkey | split; [exact Hsame | split]].
  - intros net. unfold run.
    destruct (accepted req) eqn:Hacc.
    + rewrite (forward_accepted _ _ _ Hacc), call_ollama_outcome.
      assert (Hlog : Forall (fun call : PostCall =>
                               exists d : pydict,
                                 post_json call = VDict d
                                 /\ dict_get (Py.lit "temperature") d = None)
                            ([] ++ [the_post (VDict (build_payload req)) 30])).
      { constructor; [ | constructor]. exists (build_payload req). now split. }
      destruct (net _) as [resp | e].
      * destruct (status_code resp =? 200); exact Hlog.
      * destruct e; exact Hlog.
    + unfold accepted in Hacc. apply orb_false_elim in Hacc as [Hp Hm].
      unfold forward_to_ollama. rewrite Hp, Hm. constructor.
  - intros net sent. unfold forward_to_ollama. rewrite Hsame.
    destruct req as [p m mt t0 ms]. reflexivity.
Qed.

End Payload.

(** *** Closed examples, with the reference runtime *)

(** C1, witness: a prompt request answered 200 with one JSON object. *)
Lemma handler_returns_under_ollama_witness :
  accepted (ask "Hello") = true
  /\ call_ollama (R := reference) hello_payload 30 (answers 200 hello_body) []
     = (Returned (VDict [(Py.lit "response", VStr (Py.lit "Hello"))]), [hello_post])
  /\ exists d : pydict,
       forward_to_ollama (R := reference) (ask "Hello") (answers 200 hello_body) []
       = (Returned (VDict d), [hello_post])
       /\ d = [(Py.lit "ok", VBool true);
               (Py.lit "ollama", VDict [(Py.lit "response", VStr (Py.lit "Hello"))])]
       /\ dict_get (Py.lit "ollama") d
          = Some (VDict [(Py.lit "response", VStr (Py.lit "Hello"))])
       /\ dict_get (Py.lit "result") d = None.
Proof.
  split; [reflexivity | split; [vm_compute; reflexivity | ]].
  apply (handler_returns_under_ollama (R := reference) (ask "Hello")
           (answers 200 hello_body) [] [hello_post]
           (VDict [(Py.lit "response", VStr (Py.lit "Hello"))])).
  - reflexivity.
  - vm_compute. reflexivity.
Defined.

(** C1, counterexample: the handler's object has no key [result]; the
    normalized result is under [ollama]. *)
Lemma handler_has_no_result_key :
  exists d : pydict,
    fst (run (forward_to_ollama (R := reference) (ask "Hello"))
           (answers 200 hello_body))
    = Returned (VDict d)
    /\ map fst d = [Py.lit "ok"; Py.lit "ollama"]
    /\ dict_get (Py.lit "result") d = None.
Proof.
  eexists. split; [vm_compute; reflexivity | split; vm_compute; reflexivity].
Qed.

(** C2, witness: status 200 with one JSON object. *)
Lemma status_200_decides_witness :
  answers 200 hello_body hello_post = Returned (ok_response hello_body)
  /\ (status_code (ok_response hello_body) = 200 ->
      call_ollama (R := reference) hello_payload 30 (answers 200 hello_body) []
      = (Returned (normalize (R := reference) (ok_response hello_body)),
         [] ++ [hello_post]))
  /\ (status_code (ok_response hello_body) <> 200 ->
      call_ollama (R := reference) hello_payload 30 (answers 200 hello_body) []
      = (Raised (HTTPException 502
                   (bad_status_detail (ok_response hello_body))),
         [] ++ [hello_post])).
Proof.
  split; [reflexivity | ].
  apply (status_200_decides (R := reference) hello_payload 30
           (answers 200 hello_body) [] (ok_response hello_body)).
  reflexivity.
Defined.

(** C2, counterexample: 201 is a success status of HTTP, and a response
    with it fails with a bad-gateway error that embeds the parsed body. *)
Lemma status_201_is_bad_gateway :
  http_success 201 = true
  /\ run (call_ollama (R := reference) hello_payload 30) (answers 201 hello_body)
     = (Raised (HTTPException 502
                  (VDict [(Py.lit "ollama_response",
                           VDict [(Py.lit "response", VStr (Py.lit "Hello"))])])),
        [hello_post]).
Proof.
  split; [reflexivity | vm_compute; reflexivity].
Qed.

(** X11, witness: the two streamed objects give the text Hello, both lines
    and the second object as [last]. *)
Lemma normalize_multi_line_witness :
  (1 <? List.length (stripped_lines (text (ok_response streamed_body))))%nat = true
  /\ normalize (R := reference) (ok_response streamed_body)
     = VDict ([(Py.lit "text",
                VStr (List.concat
                        (fragments (R := reference)
                           (stripped_lines (text (ok_response streamed_body))))));
               (Py.lit "raw_lines",
                VList (map VStr (stripped_lines (text (ok_response streamed_body)))))]
              ++ match last_parsed (R := reference)
                         (stripped_lines (text (ok_response streamed_body))) with
                 | Some v => if truthy v then [(Py.lit "last", v)] else []
                 | None => []
                 end)
  /\ normalize (R := reference) (ok_response streamed_body)
     = VDict [(Py.lit "text", VStr (Py.lit "Hello"));
              (Py.lit "raw_lines",
               VList [VStr (js "{'response':'Hel'}"); VStr (js "{'response':'lo'}")]);
              (Py.lit "last", VDict [(Py.lit "response", VStr (Py.lit "lo"))])].
Proof.
  split; [reflexivity | split].
  - apply (normalize_multi_line (R := reference) (ok_response streamed_body)).
    reflexivity.
  - vm_compute. reflexivity.
Defined.

(** C3, failing input: the body has two lines, each the empty object.  The
    last successfully parsed object is the empty object, which the claim and
    the docstring of [call_ollama] want under [last]; the test
    [if last_obj:] takes it for no object, and the result has no [last]
    key. *)
Lemma last_missing_for_empty_object :
  (1 <? List.length (stripped_lines empty_objects_body))%nat = true
  /\ last_parsed (R := reference) (stripped_lines empty_objects_body)
     = Some (VDict [])
  /\ normalize (R := reference) (ok_response empty_objects_body)
     = VDict [(Py.lit "text", VStr []);
              (Py.lit "raw_lines", VList [VStr (js "{}"); VStr (js "{}")])].
Proof.
  split; [reflexivity | split; vm_compute; reflexivity].
Qed.

(** C10, witness: two lines that are numbers; [last] is the number 2. *)
Lemma last_key_iff_truthy_witness :
  (1 <? List.length (stripped_lines (text (ok_response numbers_body))))%nat = true
  /\ exists d : pydict,
       normalize (R := reference) (ok_response numbers_body) = VDict d
       /\ dict_get (Py.lit "last") d = Some (VInt 2)
       /\ last_parsed (R := reference)
            (stripped_lines (text (ok_response numbers_body))) = Some (VInt 2)
       /\ truthy (VInt 2) = true.
Proof.
  split; [reflexivity | ].
  destruct (last_key_iff_truthy (R := reference) (ok_response numbers_body) eq_refl)
    as (d & Hd & Hlast & _).
  exists d. split; [exact Hd | ].
  assert (Hparsed : last_parsed (R := reference)
                      (stripped_lines (text (ok_response numbers_body)))
                    = Some (VInt 2)) by (vm_compute; reflexivity).
  split; [ | split; [exact Hparsed | reflexivity]].
  apply Hlast. split; [exact Hparsed | reflexivity].
Defined.

(** C4, witness: a single line of plain text comes back under [text]. *)
Lemma normalize_single_document_witness :
  (1 <? List.length (stripped_lines (text (ok_response plain_body))))%nat = false
  /\ json (ok_response plain_body) = None
  /\ normalize (R := reference) (ok_response plain_body)
     = VDict [(Py.lit "text", VStr (Py.lit "plain text"))].
Proof.
  split; [reflexivity | split; [vm_compute; reflexivity | ]].
  apply (proj2 (normalize_single_document (R := reference)
                  (ok_response plain_body) eq_refl)).
  vm_compute. reflexivity.
Defined.

(** C4, example: a single JSON object is passed through unchanged. *)
Example single_object_passes_through :
  normalize (R := reference) (ok_response hello_body)
  = VDict [(Py.lit "response", VStr (Py.lit "Hello"))].
Proof. vm_compute. reflexivity. Qed.

(** C4, example: a body that starts with a byte order mark is passed
    through as [resp.json()] parsed it, though its text does not parse. *)
Example marked_body_passes_through :
  json_loads (PyRuntime := reference) (text (marked_response 200)) = None
  /\ normalize (R := reference) (marked_response 200)
     = VDict [(Py.lit "response", VStr (Py.lit "Hello"))].
Proof. split; vm_compute; reflexivity. Qed.

(** C4 and C8, example: a body with an undecodable byte comes back as its
    text, though the text parses. *)
Example undecodable_body_comes_back_as_text :
  json_loads (PyRuntime := reference) (text undecodable_response)
  = Some (VDict [(Py.lit "response", VStr [65533%N])])
  /\ normalize (R := reference) undecodable_response
     = VDict [(Py.lit "text", VStr (text undecodable_response))]
  /\ fst (run (call_ollama (R := reference) hello_payload 30)
             (fun _ => Returned undecodable_response))
     = Returned (VDict [(Py.lit "text", VStr (text undecodable_response))]).
Proof. repeat split; vm_compute; reflexivity. Qed.

(** C2, example: at status 500 the detail embeds what [resp.json()] parsed
    of a body that starts with a byte order mark. *)
Example marked_body_in_the_detail :
  fst (run (call_ollama (R := reference) hello_payload 30)
         (fun _ => Returned (marked_response 500)))
  = Raised (HTTPException 502
              (VDict [(Py.lit "ollama_response",
                       VDict [(Py.lit "response", VStr (Py.lit "Hello"))])])).
Proof. vm_compute. reflexivity. Qed.

(** C5, witness: the request with every field at its default. *)
Lemma rejects_without_prompt_and_messages_witness :
  absent_or_empty (prompt default_request)
  /\ absent_or_empty (messages default_request)
  /\ forward_to_ollama (R := reference) default_request refuses []
     = (Raised (HTTPException 400
                  (VStr (Py.lit "Provide a 'prompt' string or 'messages' list."))),
        []).
Proof.
  split; [left; reflexivity | split; [left; reflexivity | ]].
  apply (rejects_without_prompt_and_messages (R := reference) default_request
           refuses []); left; reflexivity.
Defined.

(** C5, example: an empty prompt and an empty list of messages. *)
Example rejects_empty_prompt_and_messages :
  run (forward_to_ollama (R := reference)
         {| prompt := Some []; model := None; max_tokens := None;
            temperature := None; messages := Some [] |})
      (answers 200 hello_body)
  = (Raised (HTTPException 400
               (VStr (Py.lit "Provide a 'prompt' string or 'messages' list."))),
     []).
Proof. reflexivity. Qed.

(** C7, witness: the upstream refuses the connection; no variable is set,
    so the URL is the default one. *)
Lemma unreachable_upstream_is_503_witness :
  accepted (ask "Hello") = true
  /\ refuses hello_post = Raised (ConnectError (Py.lit "All connection attempts failed"))
  /\ fst (run (forward_to_ollama (R := reference) (ask "Hello")) refuses)
     = Raised (HTTPException 503
                 (VStr (Py.lit "Cannot connect to Ollama at http://localhost:11434/api/generate. Is Ollama running?")))
  /\ exists detail : pystr,
       forward_to_ollama (R := reference) (ask "Hello") refuses []
       = (Raised (HTTPException 503 (VStr detail)), [] ++ [hello_post])
       /\ Py.contains detail (DEFAULT_OLLAMA_URL (R := reference))
       /\ post_url hello_post = DEFAULT_OLLAMA_URL (R := reference).
Proof.
  split; [reflexivity | split; [reflexivity | split; [vm_compute; reflexivity | ]]].
  apply (unreachable_upstream_is_503 (R := reference) (ask "Hello") refuses []
           (Py.lit "All connection attempts failed")); reflexivity.
Defined.

(** C8, witness: a malformed line between two streamed objects is skipped
    and the call returns the text Hello. *)
Lemma malformed_body_never_raises_witness :
  answers 200 mixed_body hello_post = Returned (ok_response mixed_body)
  /\ status_code (ok_response mixed_body) = 200
  /\ call_ollama (R := reference) hello_payload 30 (answers 200 mixed_body) []
     = (Returned (normalize (R := reference) (ok_response mixed_body)),
        [] ++ [hello_post])
  /\ normalize (R := reference) (ok_response mixed_body)
     = VDict [(Py.lit "text", VStr (Py.lit "Hello"));
              (Py.lit "raw_lines",
               VList [VStr (js "{'response':'Hel'}"); VStr (Py.lit "not json");
                      VStr (js "{'response':'lo'}")]);
              (Py.lit "last", VDict [(Py.lit "response", VStr (Py.lit "lo"))])].
Proof.
  split; [reflexivity | split; [reflexivity | split]].
  - apply (malformed_body_never_raises (R := reference) hello_payload 30
             (answers 200 mixed_body) [] (ok_response mixed_body));
      reflexivity.
  - vm_compute. reflexivity.
Defined.

(** C6, witness: a prompt request with the default model and token limit. *)
Lemma payload_mirrors_request_mode_witness :
  accepted (ask "Hi") = true
  /\ dict_get (Py.lit "model") (build_payload (ask "Hi"))
     = Some (VStr (Py.lit "gemma3:270m"))
  /\ dict_get (Py.lit "prompt") (build_payload (ask "Hi"))
     = Some (VStr (template_before ++ Py.lit "Hi" ++ template_after))
  /\ dict_get (Py.lit "messages") (build_payload (ask "Hi")) = None
  /\ dict_get (Py.lit "max_tokens") (build_payload (ask "Hi")) = Some (VInt 512).
Proof.
  split; [reflexivity | ].
  destruct (payload_mirrors_request_mode (R := reference) (ask "Hi") refuses []
              eq_refl)
    as (_ & Hmodel & _ & Hprompt & Hmax).
  destruct (Hprompt (or_introl eq_refl)) as (question & Hq & Hp & Hm).
  injection Hq as <-.
  split; [exact Hmodel | split; [exact Hp | split; [exact Hm | exact Hmax]]].
Defined.

(** C6, example: in chat mode the messages are attached verbatim and there
    is no [prompt]. *)
Example chat_payload :
  build_payload
    {| prompt := Some (Py.lit "ignored"); model := Some (Py.lit "chat-model");
       max_tokens := Some 0; temperature := None;
       messages := Some [[(Py.lit "role", VStr (Py.lit "user"));
                          (Py.lit "content", VStr (Py.lit "Hi"))]] |}
  = [(Py.lit "model", VStr (Py.lit "chat-model"));
     (Py.lit "messages",
      VList [VDict [(Py.lit "role", VStr (Py.lit "user"));
                    (Py.lit "content", VStr (Py.lit "Hi"))]])].
Proof. vm_compute. reflexivity. Qed.

(** *** The models of the builtins, on known inputs *)

Example splitlines_boundaries :
  Py.splitlines
    ([97; 13; 10; 98; 10; 10; 99; 13; 100; 8232; 101; 10]%N)
  = [[97]; [98]; []; [99]; [100]; [101]]%N
  /\ Py.splitlines [] = []
  /\ Py.splitlines [10%N] = [[]].
Proof. repeat split; reflexivity. Qed.

Example strip_unicode_spaces :
  Py.strip ([32; 9; 160; 97; 32; 98; 12288; 13; 10]%N) = [97; 32; 98]%N
  /\ Py.strip ([32; 133; 8233]%N) = [].
Proof. split; reflexivity. Qed.

Example stripped_lines_drop_blank_lines :
  stripped_lines (Py.lit "  a  " ++ [13; 10; 32; 10]%N ++ Py.lit "b" ++ [10%N])
  = [Py.lit "a"; Py.lit "b"].
Proof. vm_compute. reflexivity. Qed.

Example loads_documents :
  Json.loads (js " [1, 2.50e-3, -0, true, false, null, {'a': {'b': []}, 'a': 3}] ")
  = Some (VList [VInt 1; VFloat (FDec false 250 (-5)); VInt 0; VBool true;
                 VBool false; VNone; VDict [(Py.lit "a", VInt 3)]])
  /\ Json.loads (js "'é😀\n\ud800'")
     = Some (VStr [233; 128512; 10; 55296]%N)
  /\ Json.loads (js "-Infinity") = Some (VFloat (FInf true))
  /\ Json.loads (js "NaN") = Some (VFloat FNaN).
Proof. repeat split; vm_compute; reflexivity. Qed.

Example loads_rejects :
  map (fun s => Json.loads (js s))
    ["plain text"; "1 2"; "[1,]"; "{'a':1,}"; "01"; "-"; "1.e5"; "'a"; "nul";
     ""; "  "; "{'a' 1}"; "{a:1}"; "'\x'"; "[1"; "+1"; ".5"]%string
  = repeat None 17
  /\ Json.loads (65279%N :: js "{}") = None
  /\ Json.loads (js "'a" ++ [10%N] ++ js "b'") = None.
Proof. repeat split; vm_compute; reflexivity. Qed.

Example truth_values :
  map truthy
    [VNone; VBool false; VInt 0; VFloat (FDec true 0 (-1));
     VFloat (FDec false 1 (-400)); VStr []; VList []; VDict [];
     VBool true; VInt (-1); VFloat (FDec false 5 (-324)); VFloat FNaN;
     VStr (Py.lit "0"); VList [VNone]; VDict [(Py.lit "a", VNone)]]
  = repeat false 8 ++ repeat true 7.
Proof. vm_compute. reflexivity. Qed.

Example repr_values :
  map (fun s => option_map Repr.repr (Json.loads (js s)))
    ["0.1"; "1e22"; "1e16"; "1e15"; "0.0001"; "1e-5"; "5e-324"; "1e400"; "-0.0";
     "123456789012345678.0"; "0.30000000000000004";
     "[1, 'a', {'k': [true, null, -2.50]}]"; "'it\u0027s'"]%string
  = map (fun s => Some (Py.lit s))
      ["0.1"; "1e+22"; "1e+16"; "1000000000000000.0"; "0.0001"; "1e-05"; "5e-324";
       "inf"; "-0.0"; "1.2345678901234568e+17"; "0.30000000000000004";
       "[1, 'a', {'k': [True, None, -2.5]}]"]%string
    ++ [Some (34%N :: Py.lit "it's" ++ [34%N])].
Proof. vm_compute. reflexivity. Qed.

Example default_url :
  DEFAULT_OLLAMA_URL (R := reference) = Py.lit "http://localhost:11434/api/generate"
  /\ DEFAULT_OLLAMA_URL
       (R := cpython (fun name =>
                        if Py.str_eqb name (Py.lit "OLLAMA_URL")
                        then Some (Py.lit "http://ollama:11434/api/generate")
                        else None))
     = Py.lit "http://ollama:11434/api/generate".
Proof. split; vm_compute; reflexivity. Qed.

(** ** Further properties of the program *)

(** *** Errors of the outbound call and of the handler *)

Section ErrorPaths.

Context {R : PyRuntime}.

(** X1: for every accepted request whose post fails with a transport error
    other than a connection error, the handler fails with a bad-gateway
    (502) error whose detail is the fixed prefix followed by the text of the
    underlying error, after the one post. *)
Theorem transport_error_is_502 (req : OllamaRequest) (net : Upstream)
    (sent : list PostCall) (message : pystr) :
  accepted req = true ->
  net (the_post (VDict (build_payload req)) 30) = Raised (RequestError message) ->
  forward_to_ollama req net sent
  = (Raised (HTTPException 502 (VStr (Py.lit "Ollama request error: " ++ message))),
     sent ++ [the_post (VDict (build_payload req)) 30])
  /\ Py.contains (Py.lit "Ollama request error: " ++ message) message.
Proof.
  intros Hacc Hpost. split.
  - rewrite (forward_accepted _ _ _ Hacc), call_ollama_outcome, Hpost. reflexivity.
  - exists (Py.lit "Ollama request error: "), []. now rewrite app_nil_r.
Qed.

(** X2: the handler returns normally exactly when the request has a prompt
    or messages and the upstream answers the post with status 200; there is
    no other way to a result. *)
Theorem returns_iff_accepted_and_200 (req : OllamaRequest) (net : Upstream)
    (sent : list PostCall) :
  (exists v : value, fst (forward_to_ollama req net sent) = Returned v)
  <-> accepted req = true
      /\ exists resp : Response,
           net (the_post (VDict (build_payload req)) 30) = Returned resp
           /\ status_code resp = 200.
Proof.
  split.
  - intros [v Hv]. destruct (accepted req) eqn:Hacc.
    + split; [reflexivity | ].
      rewrite (forward_accepted _ _ _ Hacc), call_ollama_outcome in Hv.
      destruct (net _) as [resp | e].
      * exists resp. split; [reflexivity | ].
        destruct (Z.eqb_spec (status_code resp) 200); [assumption | discriminate].
      * destruct e; discriminate.
    + unfold accepted in Hacc. apply orb_false_elim in Hacc as [Hp Hm].
      unfold forward_to_ollama in Hv. rewrite Hp, Hm in Hv. discriminate.
  - intros [Hacc (resp & Hpost & Hstatus)].
    rewrite (forward_accepted _ _ _ Hacc), call_ollama_outcome, Hpost, Hstatus.
    eexists. reflexivity.
Qed.

(** X3: [call_ollama] makes exactly one post on every path, error paths
    included: to the value of the environment variable OLLAMA_URL when it is
    set and to the default URL otherwise, with the payload and the timeout
    it was given; the handler posts once, with the timeout 30, exactly when
    the request is accepted, and never otherwise. *)
Theorem posts_exactly_once (req : OllamaRequest) (payload : value) (timeout : Z)
    (net : Upstream) (sent : list PostCall) :
  (exists call : PostCall,
      snd (call_ollama payload timeout net sent) = sent ++ [call]
      /\ post_url call
         = match getenv (Py.lit "OLLAMA_URL") with
           | Some url => url
           | None => Py.lit "http://localhost:11434/api/generate"
           end
      /\ post_json call = payload
      /\ post_timeout call = timeout)
  /\ snd (forward_to_ollama req net sent)
     = sent ++ (if accepted req
                then [the_post (VDict (build_payload req)) 30]
                else []).
Proof.
  split.
  - exists (the_post payload timeout). rewrite call_ollama_outcome.
    repeat split; reflexivity.
  - destruct (accepted req) eqn:Hacc.
    + rewrite (forward_accepted _ _ _ Hacc), call_ollama_outcome.
      destruct (net _) as [resp | e].
      * destruct (status_code resp =? 200); reflexivity.
      * destruct e; reflexivity.
    + unfold accepted in Hacc. apply orb_false_elim in Hacc as [Hp Hm].
      unfold forward_to_ollama. rewrite Hp, Hm. cbn. now rewrite app_nil_r.
Qed.

(** X4: every failure of the handler is one of five: the bad-request error
    of a request without prompt and messages; the 503 error of a refused
    connection; the 502 error of another transport error; the 502 error of
    a response whose status is not 200; or, unchanged, an exception of the
    post that is no transport error. *)
Theorem failures_of_the_handler (req : OllamaRequest) (net : Upstream)
    (sent : list PostCall) (e : exception) :
  fst (forward_to_ollama req net sent) = Raised e ->
  (accepted req = false
   /\ e = HTTPException 400
            (VStr (Py.lit "Provide a 'prompt' string or 'messages' list.")))
  \/ (accepted req = true
      /\ ((exists message : pystr,
              net (the_post (VDict (build_payload req)) 30)
              = Raised (ConnectError message)
              /\ e = HTTPException 503
                       (VStr (Py.lit "Cannot connect to Ollama at "
                                ++ DEFAULT_OLLAMA_URL
                                ++ Py.lit ". Is Ollama running?")))
          \/ (exists message : pystr,
                 net (the_post (VDict (build_payload req)) 30)
                 = Raised (RequestError message)
                 /\ e = HTTPException 502
                          (VStr (Py.lit "Ollama request error: " ++ message)))
          \/ (exists resp : Response,
                 net (the_post (VDict (build_payload req)) 30) = Returned resp
                 /\ status_code resp <> 200
                 /\ e = HTTPException 502 (bad_status_detail resp))
          \/ (net (the_post (VDict (build_payload req)) 30) = Raised e
              /\ unhandled e = true))).
Proof.
  intros Hfail. destruct (accepted req) eqn:Hacc.
  - right. split; [reflexivity | ].
    rewrite (forward_accepted _ _ _ Hacc), call_ollama_outcome in Hfail.
    destruct (net _) as [resp | e0].
    + right; right; left. exists resp.
      destruct (Z.eqb_spec (status_code resp) 200) as [Heq | Hne];
        [discriminate | ].
      injection Hfail as <-. now repeat split.
    + destruct e0 as [message | message | message | status detail];
        injection Hfail as <-.
      * left. now exists message.
      * right; left. now exists message.
      * right; right; right. now split.
      * right; right; right. now split.
  - left. split; [reflexivity | ].
    unfold accepted in Hacc. apply orb_false_elim in Hacc as [Hp Hm].
    unfold forward_to_ollama in Hfail. rewrite Hp, Hm in Hfail.
    now injection Hfail as <-.
Qed.

End ErrorPaths.

(** *** Chat mode and the payload *)

Section ChatMode.

Context {R : PyRuntime}.

(** X5: in chat mode the prompt of the request is not read: when [messages]
    is supplied, the payload and everything the handler does are the same
    whatever prompt comes with the request, present or not. *)
Theorem chat_mode_ignores_prompt (req : OllamaRequest) (p : option pystr) :
  supplied (messages req) ->
  build_payload (with_prompt p req) = build_payload req
  /\ dict_get (Py.lit "prompt") (build_payload (with_prompt p req)) = None
  /\ (forall (net : Upstream) (sent : list PostCall),
         forward_to_ollama (with_prompt p req) net sent
         = forward_to_ollama req net sent).
Proof.
  intros (m & ms & Hm).
  assert (Hsame : build_payload (with_prompt p req) = build_payload req).
  { destruct req as [p0 mo mt t msgs]. cbn [messages] in Hm. subst msgs.
    unfold build_payload, with_prompt.
    cbn [prompt model max_tokens messages opt_list_truthy]. reflexivity. }
  split; [exact Hsame | split].
  - rewrite Hsame, build_payload_shape, Hm. cbn [opt_list_truthy].
    destruct (max_tokens req) as [n | ]; [destruct (n =? 0) | ]; reflexivity.
  - intros net sent. unfold forward_to_ollama. rewrite Hsame.
    destruct req as [p0 mo mt t msgs]. cbn [messages] in Hm. subst msgs.
    cbn [with_prompt prompt messages opt_list_truthy negb].
    now rewrite !andb_false_r.
Qed.

End ChatMode.

(** *** The loop over the lines *)

Section Lines.

Context {R : PyRuntime}.

Lemma parsed_lines_none (lines : list pystr) :
  Forall (fun l => json_loads l = None) lines -> parsed_lines lines = [].
Proof.
  induction 1 as [ | l lines Hl _ IH]; [reflexivity | ].
  unfold parsed_lines in *. cbn [flat_map]. now rewrite Hl, IH.
Qed.

(** X6: when a body has more than one non-empty trimmed line and none of
    them parses as JSON, normalization still returns an object: its [text]
    is the empty string, its [raw_lines] holds every trimmed line, and it
    has no [last] key. *)
Theorem unparsable_lines_give_empty_text (resp : Response) :
  (1 <? List.length (stripped_lines (text resp)))%nat = true ->
  Forall (fun l => json_loads l = None) (stripped_lines (text resp)) ->
  normalize resp
  = VDict [(Py.lit "text", VStr []);
           (Py.lit "raw_lines", VList (map VStr (stripped_lines (text resp))))].
Proof.
  intros Hmulti Hnone. unfold normalize. rewrite Hmulti, aggregate_spec.
  unfold fragments, last_parsed. rewrite (parsed_lines_none _ Hnone). reflexivity.
Qed.

(** X7: the loop composes over a stream cut in two: the fragments collected
    from [a ++ b] are those of [a] followed by those of [b], and the tracked
    value is the last parsed value of [b], or what the loop over [a] left
    when no line of [b] parses. *)
Theorem collect_app (a b : list pystr) :
  collect (a ++ b)
  = (fst (collect a) ++ fst (collect b),
     match last_parsed b with
     | Some v => v
     | None => snd (collect a)
     end).
Proof.
  unfold collect at 1. rewrite fold_left_app.
  destruct (fold_left loop_body a ([], VNone)) as [ca la] eqn:Ha.
  rewrite fold_loop_body.
  assert (Hca : collect a = (ca, la)) by exact Ha.
  rewrite Hca, collect_spec. reflexivity.
Qed.

End Lines.

(** *** The trimmed lines of a body *)

Section TrimmedLines.

Lemma lstrip_suffix (s : pystr) :
  exists w : pystr, s = w ++ Py.lstrip s /\ Forall (fun c => Py.is_space c = true) w.
Proof.
  induction s as [ | c s (w & Hw & Hsp)].
  - now exists [].
  - cbn [Py.lstrip]. destruct (Py.is_space c) eqn:Hc.
    + exists (c :: w). split; [cbn; now f_equal | now constructor].
    + now exists [].
Qed.

Lemma lstrip_head (s : pystr) (c : N) (rest : pystr) :
  Py.lstrip s = c :: rest -> Py.is_space c = false.
Proof.
  induction s as [ | d s IH]; [discriminate | ].
  cbn [Py.lstrip]. destruct (Py.is_space d) eqn:Hd; [exact IH | ].
  now intros [= <- _].
Qed.

Lemma lstrip_fixed (c : N) (rest : pystr) :
  Py.is_space c = false -> Py.lstrip (c :: rest) = c :: rest.
Proof. intros Hc. cbn [Py.lstrip]. now rewrite Hc. Qed.

Lemma lstrip_idempotent (s : pystr) : Py.lstrip (Py.lstrip s) = Py.lstrip s.
Proof.
  destruct (Py.lstrip s) as [ | c rest] eqn:Hs; [reflexivity | ].
  apply lstrip_fixed. exact (lstrip_head _ _ _ Hs).
Qed.

Lemma rstrip_prefix (s : pystr) : exists w : pystr, s = Py.rstrip s ++ w.
Proof.
  unfold Py.rstrip. destruct (lstrip_suffix (rev s)) as (w & Hw & _).
  exists (rev w). rewrite <- rev_app_distr, <- Hw. now rewrite rev_involutive.
Qed.

Lemma rstrip_idempotent (s : pystr) : Py.rstrip (Py.rstrip s) = Py.rstrip s.
Proof. unfold Py.rstrip. now rewrite rev_involutive, lstrip_idempotent. Qed.

(** Trimming twice is trimming once. *)
Lemma strip_idempotent (s : pystr) : Py.strip (Py.strip s) = Py.strip s.
Proof.
  unfold Py.strip.
  assert (Hl : Py.lstrip (Py.rstrip (Py.lstrip s)) = Py.rstrip (Py.lstrip s)).
  { destruct (rstrip_prefix (Py.lstrip s)) as (w & Hw).
    destruct (Py.rstrip (Py.lstrip s)) as [ | c rest] eqn:Hr; [reflexivity | ].
    apply lstrip_fixed. apply (lstrip_head s c (rest ++ w)). exact Hw. }
  rewrite Hl. apply rstrip_idempotent.
Qed.

Lemma Forall_lstrip (P : N -> Prop) (s : pystr) :
  Forall P s -> Forall P (Py.lstrip s).
Proof.
  intros Hs. destruct (lstrip_suffix s) as (w & Hw & _).
  rewrite Hw in Hs. now apply Forall_app in Hs.
Qed.

Lemma Forall_strip (P : N -> Prop) (s : pystr) :
  Forall P s -> Forall P (Py.strip s).
Proof.
  intros Hs. unfold Py.strip, Py.rstrip.
  apply Forall_rev, Forall_lstrip, Forall_rev, Forall_lstrip, Hs.
Qed.

(** Every character of every line of [splitlines] is a character of the
    text that is no line boundary. *)
Lemma splitlines_from_chars (P : N -> Prop) (n : nat) :
  forall (s cur : pystr),
    (List.length s <= n)%nat ->
    Forall (fun c => Py.is_linebreak c = false -> P c) s ->
    Forall P cur ->
    Forall (Forall P) (Py.splitlines_from cur s).
Proof.
  induction n as [ | n IH]; intros s cur Hlen Hs Hcur.
  - destruct s; [ | cbn in Hlen; lia].
    cbn. destruct cur; [constructor | ].
    constructor; [now apply Forall_rev | constructor].
  - destruct s as [ | c s'].
    + cbn. destruct cur; [constructor | ].
      constructor; [now apply Forall_rev | constructor].
    + cbn [Py.splitlines_from]. cbn in Hlen.
      apply Forall_cons_iff in Hs as [Hc Hs'].
      destruct (Py.is_linebreak c) eqn:Hbreak.
      * constructor; [now apply Forall_rev | ].
        destruct s' as [ | d s'']; [constructor | ].
        destruct ((c =? 13) && (d =? 10))%N.
        -- apply Forall_cons_iff in Hs' as [_ Hs''].
           apply IH; [cbn in Hlen; lia | exact Hs'' | constructor].
        -- apply IH; [lia | exact Hs' | constructor].
      * apply IH; [lia | exact Hs' | ].
        constructor; [now apply Hc | exact Hcur].
Qed.

Lemma splitlines_chars (P : N -> Prop) (s : pystr) :
  Forall (fun c => Py.is_linebreak c = false -> P c) s ->
  Forall (Forall P) (Py.splitlines s).
Proof.
  intros Hs. apply (splitlines_from_chars P (List.length s));
    [apply le_n | exact Hs | constructor].
Qed.

(** X8: every entry of the list of trimmed lines is non-empty, is its own
    trimming (it neither starts nor ends with a blank) and contains no line
    boundary, whatever the body. *)
Theorem stripped_lines_are_clean (body : pystr) :
  Forall (fun l : pystr =>
            l <> []
            /\ Py.strip l = l
            /\ Forall (fun c => Py.is_linebreak c = false) l)
         (stripped_lines body).
Proof.
  unfold stripped_lines. apply Forall_forall. intros l Hin.
  apply in_map_iff in Hin as (raw & <- & Hraw).
  apply filter_In in Hraw as [Hraw Hkeep].
  split; [ | split].
  - destruct (Py.strip raw); [discriminate | discriminate].
  - apply strip_idempotent.
  - apply Forall_strip.
    assert (Hall : Forall (Forall (fun c => Py.is_linebreak c = false))
                          (Py.splitlines body)).
    { apply splitlines_chars. apply Forall_forall. now intros c _ Hc. }
    rewrite Forall_forall in Hall. now apply Hall.
Qed.

End TrimmedLines.

(** *** A blank body *)

Section BlankBody.

Context {R : PyRuntime}.

Lemma lstrip_blank (s : pystr) :
  Forall (fun c => Py.is_space c = true) s -> Py.lstrip s = [].
Proof.
  induction 1 as [ | c s Hc _ IH]; [reflexivity | ].
  cbn [Py.lstrip]. now rewrite Hc.
Qed.

Lemma strip_blank (s : pystr) :
  Forall (fun c => Py.is_space c = true) s -> Py.strip s = [].
Proof. intros Hs. unfold Py.strip. now rewrite (lstrip_blank _ Hs). Qed.

(** A blank body has no trimmed line. *)
Lemma stripped_lines_blank (body : pystr) :
  Forall (fun c => Py.is_space c = true) body -> stripped_lines body = [].
Proof.
  intros Hbody. unfold stripped_lines.
  assert (Hlines : Forall (Forall (fun c => Py.is_space c = true))
                          (Py.splitlines body)).
  { apply splitlines_chars. apply Forall_forall. intros c Hin _.
    rewrite Forall_forall in Hbody. now apply Hbody. }
  induction Hlines as [ | l ls Hl _ IH]; [reflexivity | ].
  cbn [filter]. now rewrite (strip_blank _ Hl).
Qed.

(** X9: a body whose text is empty or holds nothing but blanks has no
    trimmed line, whatever line boundaries it has, so it never takes the
    multi-line branch: the result is what [resp.json()] returns when it
    returns, and otherwise the object whose only key, [text], holds the text
    as it came. *)
Theorem blank_body_is_single_document (resp : Response) :
  Forall (fun c => Py.is_space c = true) (text resp) ->
  stripped_lines (text resp) = []
  /\ normalize resp
     = match json resp with
       | Some parsed => parsed
       | None => VDict [(Py.lit "text", VStr (text resp))]
       end.
Proof.
  intros Hblank. split; [exact (stripped_lines_blank _ Hblank) | ].
  unfold normalize. now rewrite (stripped_lines_blank _ Hblank).
Qed.

End BlankBody.

(** *** A stream of response chunks *)

Section Stream.

Context {R : PyRuntime}.

Lemma fragments_of_chunks (lines chunks : list pystr) :
  Forall2 response_chunk lines chunks ->
  List.concat (fragments lines) = List.concat chunks.
Proof.
  induction 1 as [ | line chunk lines chunks (d & Hparse & Hresp & Htext) _ IH];
    [reflexivity | ].
  unfold fragments, parsed_lines in *. cbn [flat_map]. rewrite Hparse.
  cbn [app flat_map fragment]. rewrite Hresp, Htext.
  rewrite concat_app, IH.
  destruct chunk; cbn [truthy Py.str_truthy py_str List.concat];
    now rewrite ?app_nil_r.
Qed.

(** X10: when every trimmed line of a multi-line body is a JSON object with
    a string [response] and no [text] key, as the upstream service streams
    them, the [text] of the result is the concatenation of the responses in
    line order; an empty response, as in the closing line of a stream, adds
    nothing. *)
Theorem stream_text_is_concatenation (resp : Response) (chunks : list pystr) :
  (1 <? List.length (stripped_lines (text resp)))%nat = true ->
  Forall2 response_chunk (stripped_lines (text resp)) chunks ->
  exists d : pydict,
    normalize resp = VDict d
    /\ dict_get (Py.lit "text") d = Some (VStr (List.concat chunks))
    /\ dict_get (Py.lit "raw_lines") d
       = Some (VList (map VStr (stripped_lines (text resp)))).
Proof.
  intros Hmulti Hchunks. eexists. split.
  - unfold normalize. rewrite Hmulti. apply aggregate_spec.
  - rewrite (fragments_of_chunks _ _ Hchunks). split; reflexivity.
Qed.

End Stream.

(** *** Closed examples of the further properties *)

(** X1, witness: every post times out. *)
Lemma transport_error_is_502_witness :
  accepted (ask "Hello") = true
  /\ times_out hello_post = Raised (RequestError (Py.lit "timed out"))
  /\ forward_to_ollama (R := reference) (ask "Hello") times_out []
     = (Raised (HTTPException 502
                  (VStr (Py.lit "Ollama request error: " ++ Py.lit "timed out"))),
        [] ++ [hello_post])
  /\ Py.contains (Py.lit "Ollama request error: " ++ Py.lit "timed out")
       (Py.lit "timed out").
Proof.
  split; [reflexivity | split; [reflexivity | ]].
  apply (transport_error_is_502 (R := reference) (ask "Hello") times_out []
           (Py.lit "timed out")); reflexivity.
Defined.

(** X4, witness: the upstream answers 500 with a JSON body, and the handler
    fails with the 502 error that embeds it. *)
Lemma failures_of_the_handler_witness :
  fst (forward_to_ollama (R := reference) (ask "Hello")
         (answers 500 (js "{'error':'boom'}")) [])
  = Raised (HTTPException 502
              (VDict [(Py.lit "ollama_response",
                       VDict [(Py.lit "error", VStr (Py.lit "boom"))])]))
  /\ exists resp : Response,
       answers 500 (js "{'error':'boom'}") hello_post = Returned resp
       /\ status_code resp <> 200
       /\ HTTPException 502
            (VDict [(Py.lit "ollama_response",
                     VDict [(Py.lit "error", VStr (Py.lit "boom"))])])
          = HTTPException 502 (bad_status_detail resp).
Proof.
  assert (Hfail : fst (forward_to_ollama (R := reference) (ask "Hello")
                         (answers 500 (js "{'error':'boom'}")) [])
                  = Raised (HTTPException 502
                              (VDict [(Py.lit "ollama_response",
                                       VDict [(Py.lit "error",
                                               VStr (Py.lit "boom"))])])))
    by (vm_compute; reflexivity).
  split; [exact Hfail | ].
  destruct (failures_of_the_handler (R := reference) (ask "Hello")
              (answers 500 (js "{'error':'boom'}")) [] _ Hfail)
    as [[Hrej _] | [_ [(m & Hpost & _) | [(m & Hpost & _) | [Hresp | [Hpost _]]]]]];
    try discriminate.
  exact Hresp.
Defined.

(** X5, witness: a chat request, with and without a prompt. *)
Lemma chat_mode_ignores_prompt_witness :
  supplied (messages (chat "Hi"))
  /\ build_payload (with_prompt (Some (Py.lit "ignored")) (chat "Hi"))
     = build_payload (chat "Hi")
  /\ dict_get (Py.lit "prompt")
       (build_payload (with_prompt (Some (Py.lit "ignored")) (chat "Hi")))
     = None
  /\ (forall (net : Upstream) (sent : list PostCall),
         forward_to_ollama (R := reference)
           (with_prompt (Some (Py.lit "ignored")) (chat "Hi")) net sent
         = forward_to_ollama (R := reference) (chat "Hi") net sent).
Proof.
  assert (Hsupplied : supplied (messages (chat "Hi"))).
  { eexists. eexists. reflexivity. }
  split; [exact Hsupplied | ].
  exact (chat_mode_ignores_prompt (R := reference) (chat "Hi")
           (Some (Py.lit "ignored")) Hsupplied).
Defined.

(** X6, witness: two lines of plain text. *)
Lemma unparsable_lines_give_empty_text_witness :
  (1 <? List.length (stripped_lines (text (ok_response garbage_body))))%nat = true
  /\ Forall (fun l => json_loads (PyRuntime := reference) l = None)
       (stripped_lines (text (ok_response garbage_body)))
  /\ normalize (R := reference) (ok_response garbage_body)
     = VDict [(Py.lit "text", VStr []);
              (Py.lit "raw_lines",
               VList (map VStr (stripped_lines (text (ok_response garbage_body)))))].
Proof.
  assert (Hnone : Forall (fun l => json_loads (PyRuntime := reference) l = None)
                    (stripped_lines (text (ok_response garbage_body)))).
  { repeat constructor. }
  split; [reflexivity | split; [exact Hnone | ]].
  exact (unparsable_lines_give_empty_text (R := reference)
           (ok_response garbage_body) eq_refl Hnone).
Defined.

(** X9, witness: two lines of blanks, which the decoder refuses. *)
Lemma blank_body_is_single_document_witness :
  Forall (fun c => Py.is_space c = true) (text (ok_response blank_body))
  /\ json (ok_response blank_body) = None
  /\ stripped_lines (text (ok_response blank_body)) = []
  /\ normalize (R := reference) (ok_response blank_body)
     = VDict [(Py.lit "text", VStr blank_body)].
Proof.
  assert (Hblank : Forall (fun c => Py.is_space c = true)
                     (text (ok_response blank_body))).
  { repeat constructor. }
  split; [exact Hblank | split; [reflexivity | ]].
  exact (blank_body_is_single_document (R := reference)
           (ok_response blank_body) Hblank).
Defined.

(** X10, witness: a stream of two chunks and the closing empty one. *)
Lemma stream_text_is_concatenation_witness :
  (1 <? List.length (stripped_lines (text (ok_response finished_stream))))%nat
  = true
  /\ Forall2 (response_chunk (R := reference))
       (stripped_lines (text (ok_response finished_stream)))
       [Py.lit "Hel"; Py.lit "lo"; []]
  /\ exists d : pydict,
       normalize (R := reference) (ok_response finished_stream) = VDict d
       /\ dict_get (Py.lit "text") d
          = Some (VStr (List.concat [Py.lit "Hel"; Py.lit "lo"; []]))
       /\ dict_get (Py.lit "raw_lines") d
          = Some (VList (map VStr
                           (stripped_lines (text (ok_response finished_stream))))).
Proof.
  assert (Hchunks : Forall2 (response_chunk (R := reference))
                      (stripped_lines (text (ok_response finished_stream)))
                      [Py.lit "Hel"; Py.lit "lo"; []]).
  { change (stripped_lines (text (ok_response finished_stream)))
      with [js "{'response':'Hel','done':false}";
            js "{'response':'lo','done':false}";
            js "{'response':'','done':true}"].
    repeat constructor; eexists; (split; [vm_compute; reflexivity | ]);
      split; vm_compute; reflexivity. }
  split; [reflexivity | split; [exact Hchunks | ]].
  exact (stream_text_is_concatenation (R := reference)
           (ok_response finished_stream) _ eq_refl Hchunks).
Defined.
